(** * BankAccount: a shallow embedding of [bank.py]

    The module [bank.py] defines three classes, [TimeZone],
    [TransactionID] and [Account], and two exception classes.  The
    development below embeds them as Rocq functions over an explicit
    process state and proves the properties of the specification.

    Modelling conventions.
    - A Python [str] is a [string]; each [ascii] stands for the code point
      of the same number, so the strings covered are those over code
      points below 256.
    - A Python [int] is a [Z]; [bool] is kept apart in [pyval] and behaves
      as the [int] 0 or 1 wherever Python treats it so.
    - Amounts and balances range over Python's exact real numbers ([int],
      [bool], [fractions.Fraction]) and are held as [Q].  Binary floats
      and [Decimal]s have no constructor in [pyval].
    - Account numbers are [int]s, as in the data model of the
      specification; the code stores whatever it is given.
    - Class attributes ([TransactionID.trans_num], [Account._tz]) live in
      the record [process], threaded through every operation; a raised
      exception keeps the state reached when it was raised. *)

From Stdlib Require Import ZArith QArith List String Ascii Bool Lia Lqa.
From Stdlib Require Import Decimal DecimalString DecimalPos DecimalZ.
Import ListNotations.

Local Open Scope string_scope.
Local Open Scope Z_scope.

(** ** Strings *)

(** [str.isspace] on one character: the code points below 256 that Python
    counts as whitespace. *)
Definition py_isspace (c : ascii) : bool :=
  let n := nat_of_ascii c in
  ((9 <=? n) && (n <=? 13) || (28 <=? n) && (n <=? 32)
   || (n =? 133) || (n =? 160))%nat.

Fixpoint lstrip (s : string) : string :=
  match s with
  | String c s' => if py_isspace c then lstrip s' else s
  | EmptyString => EmptyString
  end.

Fixpoint rstrip (s : string) : string :=
  match s with
  | String c s' =>
      match rstrip s' with
      | EmptyString => if py_isspace c then EmptyString else String c EmptyString
      | r => String c r
      end
  | EmptyString => EmptyString
  end.

(** [s.strip()] *)
Definition strip (s : string) : string := rstrip (lstrip s).

(** [s.split(sep)] for a one-character separator. *)
Fixpoint split (sep : ascii) (s : string) : list string :=
  match s with
  | EmptyString => [EmptyString]
  | String c s' =>
      if Ascii.eqb c sep then EmptyString :: split sep s'
      else match split sep s' with
           | h :: t => String c h :: t
           | [] => [String c EmptyString]
           end
  end.

(** [sub in s] for strings: [sub] occurs in [s] as a substring. *)
Definition str_contains (s sub : string) : bool :=
  match String.index 0 sub s with Some _ => true | None => false end.

(** [s.index(sub)]: the lowest position at which [sub] occurs. *)
Definition str_index (s sub : string) : option nat := String.index 0 sub s.

Definition is_digit (c : ascii) : bool :=
  let n := nat_of_ascii c in ((48 <=? n) && (n <=? 57))%nat.

(** [str(n)] and the [{n}] of an f-string, for an [int]. *)
Definition str_int (z : Z) : string := NilZero.string_of_int (Z.to_int z).

(** The digit part of an [int] literal given to [int()]: digits, with
    single underscores allowed between two digits. *)
Fixpoint int_digits (prev_digit : bool) (s : string) : option string :=
  match s with
  | EmptyString => if prev_digit then Some EmptyString else None
  | String c s' =>
      if is_digit c then option_map (String c) (int_digits true s')
      else if Ascii.eqb c "_" then
             if prev_digit then int_digits false s' else None
           else None
  end.

Definition uint_value (s : string) : option Z :=
  match int_digits false s with
  | Some ds => option_map Z.of_uint (NilEmpty.uint_of_string ds)
  | None => None
  end.

(** [int(s)] in base ten: surrounding whitespace, an optional sign, then
    the digits.  [None] stands for the [ValueError] Python raises. *)
Definition int_of_str (s : string) : option Z :=
  match strip s with
  | String "-" r => option_map Z.opp (uint_value r)
  | String "+" r => uint_value r
  | r => uint_value r
  end.

(** ** [datetime] *)

(** A naive [datetime.datetime]. *)
Record datetime := mk_datetime {
  year : Z; month : Z; day : Z;
  hour : Z; minute : Z; second : Z; microsecond : Z
}.

Definition is_leap (y : Z) : bool :=
  (y mod 4 =? 0) && (negb (y mod 100 =? 0) || (y mod 400 =? 0)).

Definition days_in_month (y m : Z) : Z :=
  if m =? 2 then (if is_leap y then 29 else 28)
  else if (m =? 4) || (m =? 6) || (m =? 9) || (m =? 11) then 30
  else 31.

(** The range checks of the [datetime] constructor ([MINYEAR] is 1 and
    [MAXYEAR] 9999). *)
Definition datetime_ok (d : datetime) : bool :=
  (1 <=? year d) && (year d <=? 9999)
  && (1 <=? month d) && (month d <=? 12)
  && (1 <=? day d) && (day d <=? days_in_month (year d) (month d))
  && (0 <=? hour d) && (hour d <=? 23)
  && (0 <=? minute d) && (minute d <=? 59)
  && (0 <=? second d) && (second d <=? 59)
  && (0 <=? microsecond d) && (microsecond d <=? 999999).

Definition digit_char (d : Z) : ascii := ascii_of_nat (48 + Z.to_nat d).

Definition two_digits (v : Z) : string :=
  String (digit_char (v / 10)) (String (digit_char (v mod 10)) EmptyString).

Definition four_digits (v : Z) : string :=
  two_digits (v / 100) ++ two_digits (v mod 100).

(** [%Y]: CPython hands the directive to the C library.  Some zero-fill
    the year to four digits (the form the [datetime] documentation
    gives), others print it unpadded; the two agree from year 1000 on. *)
Definition strftime_Y (zero_fill : bool) (y : Z) : string :=
  if zero_fill then four_digits y else str_int y.

(** [datetime.strftime(d, '%Y%m%d%H%M%S')] *)
Definition strftime (zero_fill : bool) (d : datetime) : string :=
  strftime_Y zero_fill (year d) ++ two_digits (month d) ++ two_digits (day d)
  ++ two_digits (hour d) ++ two_digits (minute d) ++ two_digits (second d).

(** *** [strptime]

    [datetime.strptime(s, '%Y%m%d%H%M%S')] compiles the format to a
    regular expression, one group of alternatives per directive, takes
    the first match in the order of the alternatives (backtracking into
    earlier groups when a later one fails), rejects input left over after
    the match, and builds the [datetime] from the groups. *)

Definition charset := ascii -> bool.

Definition ch (c : ascii) : charset := Ascii.eqb c.

Definition rng (lo hi : ascii) : charset := fun c =>
  ((nat_of_ascii lo <=? nat_of_ascii c) && (nat_of_ascii c <=? nat_of_ascii hi))%nat.

(** One alternative: a fixed sequence of character classes. *)
Definition alt := list charset.

Fixpoint match_alt (a : alt) (s : string) : option (string * string) :=
  match a with
  | [] => Some (EmptyString, s)
  | p :: a' =>
      match s with
      | String c s' =>
          if p c then
            match match_alt a' s' with
            | Some (m, rest) => Some (String c m, rest)
            | None => None
            end
          else None
      | EmptyString => None
      end
  end.

(** The first alternative, in order, that matches a prefix of [s] and
    lets the rest of the expression [k] match. *)
Fixpoint first_match {A : Type} (alts : list alt) (s : string)
    (k : string -> string -> option A) : option A :=
  match alts with
  | [] => None
  | a :: alts' =>
      match match_alt a s with
      | Some (m, rest) =>
          match k m rest with
          | Some r => Some r
          | None => first_match alts' s k
          end
      | None => first_match alts' s k
      end
  end.

Definition re_Y : list alt := [[is_digit; is_digit; is_digit; is_digit]].
Definition re_m : list alt :=
  [[ch "1"; rng "0" "2"]; [ch "0"; rng "1" "9"]; [rng "1" "9"]].
Definition re_d : list alt :=
  [[ch "3"; rng "0" "1"]; [rng "1" "2"; is_digit]; [ch "0"; rng "1" "9"];
   [rng "1" "9"]; [ch " "; rng "1" "9"]].
Definition re_H : list alt :=
  [[ch "2"; rng "0" "3"]; [rng "0" "1"; is_digit]; [is_digit]].
Definition re_M : list alt := [[rng "0" "5"; is_digit]; [is_digit]].
Definition re_S : list alt :=
  [[ch "6"; rng "0" "1"]; [rng "0" "5"; is_digit]; [is_digit]].

(** The groups of a match, as text, and the input left over. *)
Record time_groups := mk_groups {
  g_Y : string; g_m : string; g_d : string;
  g_H : string; g_M : string; g_S : string; g_rest : string
}.

Definition regex_match (s : string) : option time_groups :=
  first_match re_Y s (fun Y s1 =>
  first_match re_m s1 (fun m s2 =>
  first_match re_d s2 (fun d s3 =>
  first_match re_H s3 (fun H s4 =>
  first_match re_M s4 (fun M s5 =>
  first_match re_S s5 (fun S rest =>
    Some (mk_groups Y m d H M S rest))))))).

(** [None] stands for the [ValueError] of [strptime]. *)
Definition strptime (s : string) : option datetime :=
  match regex_match s with
  | Some g =>
      match g_rest g with
      | EmptyString =>
          match int_of_str (g_Y g), int_of_str (g_m g), int_of_str (g_d g),
                int_of_str (g_H g), int_of_str (g_M g), int_of_str (g_S g) with
          | Some y, Some mo, Some d, Some h, Some mi, Some s =>
              let dt := mk_datetime y mo d h mi s 0 in
              if datetime_ok dt then Some dt else None
          | _, _, _, _, _, _ => None
          end
      | String _ _ => None
      end
  | None => None
  end.

(** ** Values, exceptions and the process state *)

(** [datetime.timezone]: a fixed offset from UTC, in seconds, and an
    optional name. *)
Record timezone := mk_timezone { utcoffset : Z; tzname : option string }.

(** [timezone.utc] *)
Definition timezone_utc : timezone := mk_timezone 0 None.

(** An instance of the class [TimeZone] of [bank.py]. *)
Record TimeZone := mk_TimeZone { name : string; hours : Z; minutes : Z }.

(** The Python values that reach the constructors and methods. *)
Inductive pyval :=
| PNone
| PBool (b : bool)
| PInt (z : Z)
| PFraction (q : Q)
| PStr (s : string)
| PDatetime (d : datetime)
| PTimezone (z : timezone)
| PTimeZone (t : TimeZone).

(** Truth value of an object, as [or] tests it. *)
Definition truthy (v : pyval) : bool :=
  match v with
  | PNone => false
  | PBool b => b
  | PInt z => negb (z =? 0)
  | PFraction q => negb (Qnum q =? 0)
  | PStr s => negb (String.length s =? 0)%nat
  | PDatetime _ | PTimezone _ | PTimeZone _ => true
  end.

(** [isinstance(v, int)], with the value: [bool] is a subclass of [int]. *)
Definition as_int (v : pyval) : option Z :=
  match v with
  | PInt z => Some z
  | PBool b => Some (Z.b2z b)
  | _ => None
  end.

(** [isinstance(v, Real) or isinstance(v, Decimal)], with the value. *)
Definition as_real (v : pyval) : option Q :=
  match v with
  | PInt z => Some (inject_Z z)
  | PBool b => Some (inject_Z (Z.b2z b))
  | PFraction q => Some q
  | _ => None
  end.

Definition Qltb (x y : Q) : bool :=
  (Qnum x * QDen y <? Qnum y * QDen x)%Z.

(** Exceptions, by class, with the message.  The message of an exception
    raised by the interpreter or the library, not by [bank.py], is left
    empty. *)
Inductive exn :=
| ValueError (msg : string)
| TypeError (msg : string)
| IndexError (msg : string)
| AttributeError (msg : string)
| TransactionAbort (msg : string)
| TransactionCodeError (msg : string).

Inductive result (A : Type) :=
| Ok (a : A)
| Raise (e : exn).
Arguments Ok {A} a.
Arguments Raise {A} e.

(** The class-level state of a run of the module. *)
Record process := mk_process {
  trans_num : Z;                 (* TransactionID.trans_num *)
  Account_tz : option timezone;  (* Account._tz, unset before set_tz runs *)
  zero_fill_year : bool          (* how the C library prints %Y *)
}.

(** The state when the module has just been imported:
    [trans_num = -1] in the class body, no [_tz] yet. *)
Definition initial (zero_fill : bool) : process := mk_process (-1) None zero_fill.

(** [Account.interest_rate = 0.5]; never assigned afterwards. *)
Definition interest_rate : Q := 1 # 2.

(** *** A state and exception monad

    A computation over a state [S] returns a value or raises, and in both
    cases leaves a state behind. *)
Definition M (S A : Type) : Type := S -> result A * S.

Definition ret {S A} (a : A) : M S A := fun s => (Ok a, s).

Definition raise {S A} (e : exn) : M S A := fun s => (Raise e, s).

Definition bind {S A B} (c : M S A) (k : A -> M S B) : M S B :=
  fun s => match c s with
           | (Ok a, s') => k a s'
           | (Raise e, s') => (Raise e, s')
           end.

Definition get {S} : M S S := fun s => (Ok s, s).

Definition put {S} (s : S) : M S unit := fun _ => (Ok tt, s).

(** A pure computation that may raise. *)
Definition lift {S A} (r : result A) : M S A := fun s => (r, s).

(** A class-level computation run from a method of an instance [I]. *)
Definition on_class {I A} (c : M process A) : M (I * process) A :=
  fun s => match c (snd s) with (r, p') => (r, (fst s, p')) end.

Notation "x <- c ;; k" := (bind c (fun x => k))
  (at level 61, c at next level, right associativity).
Notation "c ;;; k" := (bind c (fun _ => k))
  (at level 61, right associativity).

Definition rbind {A B} (r : result A) (k : A -> result B) : result B :=
  match r with Ok a => k a | Raise e => Raise e end.

Notation "'let?' x := r 'in' k" := (rbind r (fun x => k))
  (at level 10, x name, r at level 100, k at level 200).

Definition of_option {A} (o : option A) (e : exn) : result A :=
  match o with Some a => Ok a | None => Raise e end.

(** ** class [TimeZone] *)

(** The [name] setter. *)
Definition TimeZone_set_name (value : pyval) : result string :=
  match value with
  | PStr s =>
      if (String.length s <? 1)%nat
      then Raise (ValueError "Invalid name for TimeZone")
      else Ok s
  | _ => Raise (ValueError "Invalid name for TimeZone")
  end.

(** The [hours] setter. *)
Definition TimeZone_set_hours (value : pyval) : result Z :=
  match as_int value with
  | Some z =>
      if (z >=? 24) || (z <=? -24)
      then Raise (ValueError "Hours can only have integer values from -23 to 23")
      else Ok z
  | None => Raise (ValueError "Hours can only have integer values from -23 to 23")
  end.

(** The [minutes] setter. *)
Definition TimeZone_set_minutes (value : pyval) : result Z :=
  match as_int value with
  | Some z =>
      if (z >=? 60) || (z <=? -60)
      then Raise (ValueError "Minutes can only have integer values from -59 to 59")
      else Ok z
  | None => Raise (ValueError "Minutes can only have integer values from -59 to 59")
  end.

(** [TimeZone.__init__] *)
Definition TimeZone_init (name hours minutes : pyval) : result TimeZone :=
  let? n := TimeZone_set_name name in
  let? h := TimeZone_set_hours hours in
  let? m := TimeZone_set_minutes minutes in
  Ok (mk_TimeZone n h m).

(** The [offset] property: [timedelta(hours=..., minutes=...)], as a
    number of seconds. *)
Definition offset (t : TimeZone) : Z := hours t * 3600 + minutes t * 60.

(** [timezone(offset, name)]: the offset has to lie strictly within a day. *)
Definition timezone_init (off : Z) (nm : string) : result timezone :=
  if (-86400 <? off) && (off <? 86400)
  then Ok (mk_timezone off (Some nm))
  else Raise (ValueError "").

(** ** class [TransactionID] *)

(** An instance.  [self_trans_num] is the instance attribute [trans_num]:
    [__init__] never assigns it, so it is absent until
    [Account.parse_confirmation_code] sets it; the class attribute of the
    same name is [trans_num] in [process]. *)
Record TransactionID := mk_TransactionID {
  trans_code : pyval;
  trans_type : string;
  account_num : Z;
  utc_time : datetime;
  tz : pyval;
  self_trans_num : option Z
}.

(** [self._codes] *)
Definition codes : string := "DWIX".

(** [s[i]]: an index has to be an [int]; a negative one counts from the
    end. *)
Definition str_getitem (s : string) (i : pyval) : result string :=
  match as_int i with
  | Some z =>
      let n := Z.of_nat (String.length s) in
      let j := if z <? 0 then z + n else z in
      if (0 <=? j) && (j <? n) then
        match String.get (Z.to_nat j) s with
        | Some c => Ok (String c EmptyString)
        | None => Raise (IndexError "")
        end
      else Raise (IndexError "")
  | None => Raise (TypeError "")
  end.

(** The [utc_time] setter. *)
Definition set_utc_time (value : pyval) : result datetime :=
  match value with
  | PDatetime d => Ok d
  | PStr s => of_option (strptime s) (ValueError "")
  | _ => Raise (TypeError "")
  end.

(** [inc_trans_num] *)
Definition inc_trans_num : M process unit :=
  p <- get ;;
  put (mk_process (trans_num p + 1) (Account_tz p) (zero_fill_year p)).

(** [TransactionID.__init__].  [now] is what [datetime.utcnow()] returns
    if it is called; [utc_time] and [tz] are [PNone] when the keyword is
    not given. *)
Definition TransactionID_init (now : datetime) (trans_code : pyval)
    (account_num : Z) (utc_time tz : pyval) : M process TransactionID :=
  ty <- lift (str_getitem codes trans_code) ;;
  t <- lift (set_utc_time (if truthy utc_time then utc_time else PDatetime now)) ;;
  let z := if truthy tz then tz else PTimezone timezone_utc in
  inc_trans_num ;;;
  ret (mk_TransactionID trans_code ty account_num t z None).

(** [self.trans_num]: the instance attribute when there is one, the class
    attribute otherwise. *)
Definition get_trans_num (p : process) (t : TransactionID) : Z :=
  match self_trans_num t with
  | Some n => n
  | None => trans_num p
  end.

(** The [transaction_num] property, read in the state [p]. *)
Definition transaction_num (p : process) (t : TransactionID) : string :=
  trans_type t ++ "-" ++ str_int (account_num t) ++ "-"
  ++ strftime (zero_fill_year p) (utc_time t) ++ "-"
  ++ str_int (get_trans_num p t).

(** [__repr__] *)
Definition TransactionID_repr (p : process) (t : TransactionID) : string :=
  "TransactionID(" ++ transaction_num p t ++ ")".

(** ** class [Account] *)

Record Account := mk_Account {
  account_number : Z;
  first_name : string;
  last_name : string;
  balance : Q
}.

(** The [first_name] setter. *)
Definition set_first_name (name : pyval) : result string :=
  match name with
  | PStr s =>
      if (String.length s <? 1)%nat
      then Raise (ValueError "First Name should be atleast 1 character long")
      else Ok (strip s)
  | _ => Raise (TypeError "Name should only be a string")
  end.

(** The [last_name] setter. *)
Definition set_last_name (name : pyval) : result string :=
  match name with
  | PStr s => Ok (strip s)
  | _ => Raise (TypeError "Name should only be a string")
  end.

(** [get_tz]: reading [cls._tz] before any [set_tz] is an
    [AttributeError]. *)
Definition get_tz : M process timezone :=
  p <- get ;;
  lift (of_option (Account_tz p) (AttributeError "")).

(** [set_tz] *)
Definition set_tz (tz : pyval) : M process unit :=
  tz' <- lift (match tz with
               | PTimeZone t =>
                   let? z := timezone_init (offset t) (name t) in Ok (PTimezone z)
               | v => Ok v
               end) ;;
  match tz' with
  | PTimezone z =>
      p <- get ;;
      put (mk_process (trans_num p) (Some z) (zero_fill_year p))
  | _ => raise (TypeError "Invalid TimeZone object passed")
  end.

(** [Account.__init__]; the defaults of the keywords are
    [tz = PTimezone timezone_utc] and [balance = PInt 0]. *)
Definition Account_init (account_num : Z) (first_name last_name tz balance : pyval)
    : M process Account :=
  fn <- lift (set_first_name first_name) ;;
  ln <- lift (set_last_name last_name) ;;
  set_tz tz ;;;
  match as_real balance with
  | Some b =>
      if Qltb b 0
      then raise (ValueError "Balance must be a non-negative real number")
      else ret (mk_Account account_num fn ln b)
  | None => raise (ValueError "Balance must be a non-negative real number")
  end.

(** The methods of an instance run over the instance and the process. *)
Definition self : M (Account * process) Account :=
  fun s => (Ok (fst s), s).

Definition set_balance (b : Q) : M (Account * process) unit :=
  fun s => (Ok tt, (mk_Account (account_number (fst s)) (first_name (fst s))
                               (last_name (fst s)) b, snd s)).

(** [deposit] *)
Definition deposit (now : datetime) (value : pyval) : M (Account * process) TransactionID :=
  match as_real value with
  | Some v =>
      if Qltb v 0
      then raise (ValueError "Deposit amount must be a non-negative real number")
      else
        a <- self ;;
        set_balance (balance a + v)%Q ;;;
        on_class (TransactionID_init now (PInt 0) (account_number a) PNone PNone)
  | None => raise (ValueError "Deposit amount must be a non-negative real number")
  end.

(** [withdraw] *)
Definition withdraw (now : datetime) (value : pyval) : M (Account * process) TransactionID :=
  match as_real value with
  | Some v =>
      if Qltb v 0
      then raise (ValueError "Withdrawal amount must be a non-negative real number")
      else
        a <- self ;;
        if Qltb (balance a - v)%Q 0 then
          t <- on_class (TransactionID_init now (PInt 3) (account_number a) PNone PNone) ;;
          p <- on_class get ;;
          raise (TransactionAbort ("Insufficient balance: " ++ TransactionID_repr p t))
        else
          set_balance (balance a - v)%Q ;;;
          on_class (TransactionID_init now (PInt 1) (account_number a) PNone PNone)
  | None => raise (ValueError "Withdrawal amount must be a non-negative real number")
  end.

(** [pay_monthly_interest].  The product is taken in exact arithmetic;
    Python takes it in binary floating point, [interest_rate] being the
    float [0.5]. *)
Definition pay_monthly_interest (now : datetime) : M (Account * process) TransactionID :=
  a <- self ;;
  let interest_amount := (balance a * (interest_rate / inject_Z 100))%Q in
  set_balance (balance a + interest_amount)%Q ;;;
  on_class (TransactionID_init now (PInt 2) (account_number a) PNone PNone).

(** [trans_id.trans_num = k]: an assignment to the instance. *)
Definition set_self_trans_num (t : TransactionID) (k : Z) : TransactionID :=
  mk_TransactionID (trans_code t) (trans_type t) (account_num t) (utc_time t)
    (tz t) (Some k).

(** [parse_confirmation_code] *)
Definition parse_confirmation_code (now : datetime) (confirmation_num : string)
    : M process TransactionID :=
  match split "-" confirmation_num with
  | [trans_type; account_num; utc_time; trans_num] =>
      if negb (str_contains "DWIX" trans_type)
      then raise (TransactionCodeError "Invalid Transaction Code")
      else
        trans_code <- lift (of_option (str_index "DWIX" trans_type) (ValueError "")) ;;
        n <- lift (of_option (int_of_str account_num) (ValueError "")) ;;
        z <- get_tz ;;
        trans_id <- TransactionID_init now (PInt (Z.of_nat trans_code)) n
                      (PStr utc_time) (PTimezone z) ;;
        k <- lift (of_option (int_of_str trans_num) (ValueError "")) ;;
        ret (set_self_trans_num trans_id k)
  | _ => raise (ValueError "")
  end.

(** ** Runs of the module

    One step is one call of the public interface, made with any arguments
    and, for a method, on any account; [steps] is what a program that uses
    the module can do to the class-level state. *)
Inductive step : process -> process -> Prop :=
| step_TransactionID now code acct ut z p r p' :
    TransactionID_init now code acct ut z p = (r, p') -> step p p'
| step_Account num fn ln z b p r p' :
    Account_init num fn ln z b p = (r, p') -> step p p'
| step_set_tz z p r p' :
    set_tz z p = (r, p') -> step p p'
| step_deposit now v a p r a' p' :
    deposit now v (a, p) = (r, (a', p')) -> step p p'
| step_withdraw now v a p r a' p' :
    withdraw now v (a, p) = (r, (a', p')) -> step p p'
| step_pay_monthly_interest now a p r a' p' :
    pay_monthly_interest now (a, p) = (r, (a', p')) -> step p p'
| step_parse now s p r p' :
    parse_confirmation_code now s p = (r, p') -> step p p'.

Inductive steps : process -> process -> Prop :=
| steps_nil p : steps p p
| steps_cons p p' p'' : step p p' -> steps p' p'' -> steps p p''.

(** ** What the specification says, in its own words *)

(** The arguments the specification accepts for a [TimeZone]. *)
Definition TimeZone_args_valid (name hours minutes : pyval) : Prop :=
  (exists s, name = PStr s /\ s <> EmptyString)
  /\ (exists h, as_int hours = Some h /\ -24 < h < 24)
  /\ (exists m, as_int minutes = Some m /\ -60 < m < 60).

(** A string made of whitespace only. *)
Fixpoint all_space (s : string) : bool :=
  match s with
  | EmptyString => true
  | String c s' => py_isspace c && all_space s'
  end.

(** [t] with its microseconds dropped. *)
Definition whole_seconds (t : datetime) : datetime :=
  mk_datetime (year t) (month t) (day t) (hour t) (minute t) (second t) 0.

(** ** Checks on strings used in the proofs *)

Fixpoint all_chars (f : ascii -> bool) (s : string) : bool :=
  match s with
  | EmptyString => true
  | String c s' => f c && all_chars f s'
  end.

Definition all_digits : string -> bool := all_chars is_digit.

(** [s] does not contain the character [sep]. *)
Definition no_char (sep : ascii) : string -> bool :=
  all_chars (fun c => negb (Ascii.eqb c sep)).

(** The alternative [a] matches the whole of [m]. *)
Fixpoint alt_full (a : alt) (m : string) : bool :=
  match a, m with
  | [], EmptyString => true
  | f :: a', String c m' => f c && alt_full a' m'
  | _, _ => false
  end.

(** The alternative [a] is refused by a character of [m]. *)
Fixpoint alt_fails (a : alt) (m : string) : bool :=
  match a, m with
  | f :: a', String c m' => if f c then alt_fails a' m' else true
  | _, _ => false
  end.

(** Among [alts], tried in order on an input that starts with [m], the
    first that matches matches exactly [m]. *)
Fixpoint selects (alts : list alt) (m : string) : bool :=
  match alts with
  | [] => false
  | a :: alts' => alt_full a m || (alt_fails a m && selects alts' m)
  end.

(** [f v] is the text of a group of [alts], made of digits, that reads
    back as [v]. *)
Definition field_ok (alts : list alt) (f : Z -> string) (v : Z) : bool :=
  selects alts (f v) && all_digits (f v)
  && match int_of_str (f v) with Some z => z =? v | None => false end.

(** ** The rest of the interface *)

(** Assignments to the properties of a [TimeZone] that exists: the setter
    runs, and the instance changes only when it returns. *)
Definition TimeZone_assign_name (t : TimeZone) (value : pyval) : result TimeZone :=
  let? n := TimeZone_set_name value in Ok (mk_TimeZone n (hours t) (minutes t)).

Definition TimeZone_assign_hours (t : TimeZone) (value : pyval) : result TimeZone :=
  let? h := TimeZone_set_hours value in Ok (mk_TimeZone (name t) h (minutes t)).

Definition TimeZone_assign_minutes (t : TimeZone) (value : pyval) : result TimeZone :=
  let? m := TimeZone_set_minutes value in Ok (mk_TimeZone (name t) (hours t) m).

(** The instances a program can hold: made by the constructor, then
    assigned to. *)
Inductive TimeZone_reachable : TimeZone -> Prop :=
| reach_init n h m t :
    TimeZone_init n h m = Ok t -> TimeZone_reachable t
| reach_name t v t' :
    TimeZone_reachable t -> TimeZone_assign_name t v = Ok t' -> TimeZone_reachable t'
| reach_hours t v t' :
    TimeZone_reachable t -> TimeZone_assign_hours t v = Ok t' -> TimeZone_reachable t'
| reach_minutes t v t' :
    TimeZone_reachable t -> TimeZone_assign_minutes t v = Ok t' -> TimeZone_reachable t'.

(** What [set_tz] takes, and the [timezone] it keeps for it. *)
Definition accepted_tz (zone : pyval) (z : timezone) : Prop :=
  zone = PTimezone z
  \/ exists t, zone = PTimeZone t /\ -86400 < offset t < 86400
       /\ z = mk_timezone (offset t) (Some (name t)).

Definition six_digits (v : Z) : string :=
  two_digits (v / 10000) ++ two_digits (v / 100 mod 100) ++ two_digits (v mod 100).

(** [d.isoformat()] of a naive [datetime]: the fraction is printed only
    when there are microseconds. *)
Definition isoformat (d : datetime) : string :=
  four_digits (year d) ++ "-" ++ two_digits (month d) ++ "-" ++ two_digits (day d)
  ++ "T" ++ two_digits (hour d) ++ ":" ++ two_digits (minute d) ++ ":"
  ++ two_digits (second d)
  ++ (if microsecond d =? 0 then EmptyString else "." ++ six_digits (microsecond d)).

(** The [time_utc] property. *)
Definition time_utc (t : TransactionID) : string := isoformat (utc_time t).

(** The [full_name] property. *)
Definition full_name (a : Account) : string := first_name a ++ " " ++ last_name a.




(** The first, the last character of [s] is whitespace. *)
Definition starts_space (s : string) : bool :=
  match s with
  | String c _ => py_isspace c
  | EmptyString => false
  end.

Fixpoint ends_space (s : string) : bool :=
  match s with
  | EmptyString => false
  | String c EmptyString => py_isspace c
  | String _ s' => ends_space s'
  end.


(** The number of occurrences of [sep] in [s]. *)
Fixpoint count_char (sep : ascii) (s : string) : nat :=
  match s with
  | EmptyString => 0
  | String c s' => (if Ascii.eqb c sep then 1 else 0) + count_char sep s'
  end.

(** * Properties *)

(** ** Strings *)


(** ** The monad *)

Lemma bind_ok {S A B} (c : M S A) (k : A -> M S B) s a s' :
  c s = (Ok a, s') -> bind c k s = k a s'.
Proof. intros H. unfold bind. now rewrite H. Qed.

Lemma bind_raise {S A B} (c : M S A) (k : A -> M S B) s e s' :
  c s = (Raise e, s') -> bind c k s = (Raise e, s').
Proof. intros H. unfold bind. now rewrite H. Qed.

(** ** [TimeZone] *)

Lemma TimeZone_set_name_ok v s :
  TimeZone_set_name v = Ok s <-> v = PStr s /\ s <> EmptyString.
Proof.
  unfold TimeZone_set_name. split.
  - destruct v; try discriminate.
    destruct s0; simpl; [discriminate|].
    intros [= <-]. split; [reflexivity | discriminate].
  - intros [-> Hs]. destruct s; [congruence | reflexivity].
Qed.

Lemma TimeZone_set_hours_ok v h :
  TimeZone_set_hours v = Ok h <-> as_int v = Some h /\ -24 < h < 24.
Proof.
  unfold TimeZone_set_hours. destruct (as_int v) as [z|].
  - destruct (z >=? 24) eqn:E1; destruct (z <=? -24) eqn:E2; simpl;
      (split; [intros [= <-] | intros [[= ->] ?]]); try (split; [reflexivity|]);
      try reflexivity; lia.
  - split; [discriminate | intros [[=] _]].
Qed.

Lemma TimeZone_set_minutes_ok v m :
  TimeZone_set_minutes v = Ok m <-> as_int v = Some m /\ -60 < m < 60.
Proof.
  unfold TimeZone_set_minutes. destruct (as_int v) as [z|].
  - destruct (z >=? 60) eqn:E1; destruct (z <=? -60) eqn:E2; simpl;
      (split; [intros [= <-] | intros [[= ->] ?]]); try (split; [reflexivity|]);
      try reflexivity; lia.
  - split; [discriminate | intros [[=] _]].
Qed.

Lemma setter_raises_ValueError :
  (forall v e, TimeZone_set_name v = Raise e -> exists msg, e = ValueError msg)
  /\ (forall v e, TimeZone_set_hours v = Raise e -> exists msg, e = ValueError msg)
  /\ (forall v e, TimeZone_set_minutes v = Raise e -> exists msg, e = ValueError msg).
Proof.
  unfold TimeZone_set_name, TimeZone_set_hours, TimeZone_set_minutes.
  repeat split; intros v e.
  - destruct v; try (intros [= <-]; eauto).
    destruct (_ <? _)%nat; intros [= <-]; eauto.
  - destruct (as_int v); [destruct (_ || _)|]; intros [= <-]; eauto.
  - destruct (as_int v); [destruct (_ || _)|]; intros [= <-]; eauto.
Qed.

(** C8.  The constructor of [TimeZone] returns an instance exactly when
    the name is a non-empty string, the hours an integer strictly between
    -24 and 24 and the minutes an integer strictly between -60 and 60
    ([bool] counting as the integer it equals, as [isinstance] has it);
    it raises [ValueError] otherwise; and the offset of the instance is
    hours * 3600 + minutes * 60 seconds. *)
Theorem TimeZone_init_validates (n h m : pyval) :
  match TimeZone_init n h m with
  | Ok t =>
      TimeZone_args_valid n h m
      /\ as_int h = Some (hours t)
      /\ as_int m = Some (minutes t)
      /\ offset t = hours t * 3600 + minutes t * 60
  | Raise e =>
      ~ TimeZone_args_valid n h m /\ exists msg, e = ValueError msg
  end.
Proof.
  destruct setter_raises_ValueError as (Hn & Hh & Hm).
  unfold TimeZone_init, TimeZone_args_valid.
  destruct (TimeZone_set_name n) as [s|e] eqn:En; simpl.
  2:{ split; [|eauto]. intros ([s [Hs Hs']] & _).
      assert (TimeZone_set_name n = Ok s) by (apply TimeZone_set_name_ok; auto).
      congruence. }
  destruct (TimeZone_set_hours h) as [hz|e] eqn:Eh; simpl.
  2:{ split; [|eauto]. intros (_ & [hz Hh'] & _).
      apply TimeZone_set_hours_ok in Hh'. congruence. }
  destruct (TimeZone_set_minutes m) as [mz|e] eqn:Em; simpl.
  2:{ split; [|eauto]. intros (_ & _ & [mz Hm']).
      apply TimeZone_set_minutes_ok in Hm'. congruence. }
  apply TimeZone_set_name_ok in En. apply TimeZone_set_hours_ok in Eh.
  apply TimeZone_set_minutes_ok in Em.
  destruct En, Eh, Em. repeat split; eauto; lia.
Qed.

(** ** [TransactionID.__init__] *)

(** The constructor, unfolded: the code is looked up, then the time is
    set, and only then is the counter incremented. *)
Lemma TransactionID_init_eq now code acct ut z p :
  TransactionID_init now code acct ut z p =
  match str_getitem codes code with
  | Raise e => (Raise e, p)
  | Ok ty =>
      match set_utc_time (if truthy ut then ut else PDatetime now) with
      | Raise e => (Raise e, p)
      | Ok t =>
          (Ok (mk_TransactionID code ty acct t
                 (if truthy z then z else PTimezone timezone_utc) None),
           mk_process (trans_num p + 1) (Account_tz p) (zero_fill_year p))
      end
  end.
Proof.
  unfold TransactionID_init, bind, lift, inc_trans_num, get, put, ret.
  destruct (str_getitem codes code); [|reflexivity].
  destruct (set_utc_time _); reflexivity.
Qed.

Lemma TransactionID_init_counter now code acct ut z p r p' :
  TransactionID_init now code acct ut z p = (r, p') ->
  Account_tz p' = Account_tz p /\ zero_fill_year p' = zero_fill_year p
  /\ match r with
     | Ok t => trans_num p' = trans_num p + 1 /\ self_trans_num t = None
     | Raise _ => p' = p
     end.
Proof.
  rewrite TransactionID_init_eq.
  destruct (str_getitem codes code); [|intros [= ? ?]; subst; auto].
  destruct (set_utc_time _); intros [= ? ?]; subst; simpl; auto.
Qed.

(** A receipt: what the methods of [Account] construct. *)
Lemma TransactionID_init_receipt now (c : Z) acct p :
  0 <= c <= 3 ->
  exists ty,
    str_getitem codes (PInt c) = Ok ty
    /\ TransactionID_init now (PInt c) acct PNone PNone p =
       (Ok (mk_TransactionID (PInt c) ty acct now (PTimezone timezone_utc) None),
        mk_process (trans_num p + 1) (Account_tz p) (zero_fill_year p)).
Proof.
  intros Hc. rewrite TransactionID_init_eq.
  assert (c = 0 \/ c = 1 \/ c = 2 \/ c = 3) as [-> | [-> | [-> | ->]]] by lia;
    eexists; split; reflexivity.
Qed.

(** C6, as the code has it.  A code that is not an [int] raises
    [TypeError] and an [int] below -4 or above 3 raises [IndexError], in
    both cases before the counter moves; an [int] from -4 to 3 selects a
    letter, the negative ones counting from the end of ['DWIX']. *)
Theorem TransactionID_init_code_check now code acct ut z p :
  match as_int code with
  | None => TransactionID_init now code acct ut z p = (Raise (TypeError ""), p)
  | Some c =>
      (c < -4 \/ 3 < c ->
       TransactionID_init now code acct ut z p = (Raise (IndexError ""), p))
      /\ (-4 <= c <= 3 ->
          str_getitem codes code =
          of_option (option_map (fun a => String a EmptyString)
                       (String.get (Z.to_nat (c mod 4)) codes))
                    (IndexError "")
          /\ exists ty, str_getitem codes code = Ok ty)
  end.
Proof.
  rewrite TransactionID_init_eq. unfold str_getitem.
  destruct (as_int code) as [c|]; [|reflexivity].
  cbn [String.length codes Z.of_nat]. split.
  - intros Hc. destruct (c <? 0) eqn:E.
    + replace ((0 <=? c + _) && _) with false; [reflexivity|].
      symmetry. apply andb_false_iff. simpl. destruct Hc; [left|lia]. lia.
    + replace ((0 <=? c) && _) with false; [reflexivity|].
      symmetry. apply andb_false_iff. simpl. right. lia.
  - intros Hc.
    assert (c = -4 \/ c = -3 \/ c = -2 \/ c = -1 \/ c = 0 \/ c = 1 \/ c = 2 \/ c = 3)
      as [-> | [-> | [-> | [-> | [-> | [-> | [-> | ->]]]]]]] by lia;
      (split; [reflexivity | eexists; reflexivity]).
Qed.

(** C6, as the specification has it, fails: the code -1 is none of 0, 1,
    2, 3 and yet the constructor returns an identifier, of type X. *)
Lemma negative_code_accepted :
  as_int (PInt (-1)) = Some (-1) /\ ~ (0 <= -1 <= 3)
  /\ TransactionID_init (mk_datetime 2020 1 1 0 0 0 0) (PInt (-1)) 7 PNone PNone
       (initial true)
     = (Ok (mk_TransactionID (PInt (-1)) "X" 7 (mk_datetime 2020 1 1 0 0 0 0)
              (PTimezone timezone_utc) None),
        mk_process 0 None true).
Proof. repeat split. lia. Qed.

(** ** [Account.__init__] *)

Lemma Qltb_false x y : (y <= x)%Q -> Qltb x y = false.
Proof. unfold Qle, Qltb. intros H. apply Z.ltb_ge. exact H. Qed.

Lemma Qltb_true x y : (x < y)%Q -> Qltb x y = true.
Proof. unfold Qlt, Qltb. intros H. apply Z.ltb_lt. exact H. Qed.

Lemma lstrip_all_space s : all_space s = true -> lstrip s = EmptyString.
Proof.
  induction s as [|c s IH]; simpl; [reflexivity|].
  intros H. apply andb_prop in H as [Hc Hs]. rewrite Hc. auto.
Qed.

Lemma strip_all_space s : all_space s = true -> strip s = EmptyString.
Proof. intros H. unfold strip. now rewrite lstrip_all_space. Qed.

(** C9.  A first name that is not empty but is all whitespace passes the
    length check, which looks at the name as given, and is stored
    stripped, that is, empty. *)
Theorem whitespace_first_name_stored_empty num s ln l zone b q p p' :
  s <> EmptyString -> all_space s = true ->
  set_last_name ln = Ok l ->
  set_tz zone p = (Ok tt, p') ->
  as_real b = Some q -> (0 <= q)%Q ->
  Account_init num (PStr s) ln zone b p = (Ok (mk_Account num EmptyString l q), p')
  /\ first_name (mk_Account num EmptyString l q) = EmptyString.
Proof.
  intros Hs Hsp Hl Hz Hb Hq. split; [|reflexivity].
  unfold Account_init, set_first_name.
  destruct s as [|c s]; [congruence|]. cbn [String.length Nat.ltb Nat.leb].
  rewrite strip_all_space by assumption. rewrite Hl.
  unfold bind at 1. unfold lift at 1. unfold bind at 1. unfold lift at 1.
  rewrite (bind_ok _ _ _ _ _ Hz). rewrite Hb, Qltb_false by assumption.
  reflexivity.
Qed.

Lemma whitespace_first_name_stored_empty_witness :
  Account_init 1 (PStr " ") (PStr "Doe") (PTimezone timezone_utc) (PInt 0) (initial true)
  = (Ok (mk_Account 1 EmptyString "Doe" 0), mk_process (-1) (Some timezone_utc) true)
  /\ first_name (mk_Account 1 EmptyString "Doe" 0) = EmptyString.
Proof.
  apply (whitespace_first_name_stored_empty 1 " " (PStr "Doe") "Doe"
           (PTimezone timezone_utc) (PInt 0) 0 (initial true)).
  - discriminate.
  - reflexivity.
  - reflexivity.
  - reflexivity.
  - reflexivity.
  - unfold Qle. simpl. lia.
Defined.

(** ** [parse_confirmation_code] *)

(** The method, unfolded along its sequence of checks. *)
Lemma parse_confirmation_code_eq now s p :
  parse_confirmation_code now s p =
  match split "-" s with
  | [ty; an; ut; tn] =>
      if negb (str_contains "DWIX" ty)
      then (Raise (TransactionCodeError "Invalid Transaction Code"), p)
      else
        match str_index "DWIX" ty with
        | None => (Raise (ValueError ""), p)
        | Some i =>
            match int_of_str an with
            | None => (Raise (ValueError ""), p)
            | Some n =>
                match Account_tz p with
                | None => (Raise (AttributeError ""), p)
                | Some z =>
                    match TransactionID_init now (PInt (Z.of_nat i)) n (PStr ut)
                            (PTimezone z) p with
                    | (Raise e, p') => (Raise e, p')
                    | (Ok t, p') =>
                        match int_of_str tn with
                        | None => (Raise (ValueError ""), p')
                        | Some k => (Ok (set_self_trans_num t k), p')
                        end
                    end
                end
            end
        end
  | _ => (Raise (ValueError ""), p)
  end.
Proof.
  unfold parse_confirmation_code.
  destruct (split "-" s) as [|ty [|an [|ut [|tn [|x l]]]]]; try reflexivity.
  destruct (negb _); [reflexivity|].
  unfold bind, lift, get_tz, get, ret.
  destruct (str_index "DWIX" ty) as [i|]; [|reflexivity]. simpl.
  destruct (int_of_str an) as [n|]; [|reflexivity]. simpl.
  destruct (Account_tz p) as [z|]; [|reflexivity]. simpl.
  destruct (TransactionID_init _ _ _ _ _ p) as [[t|e] p']; [|reflexivity].
  destruct (int_of_str tn); reflexivity.
Qed.

(** The identifier that [parse_confirmation_code] returns has the
    class-level timezone, and its own sequence number. *)
Lemma parse_confirmation_code_ok now s p t p' :
  parse_confirmation_code now s p = (Ok t, p') ->
  trans_num p' = trans_num p + 1
  /\ (exists z, Account_tz p = Some z /\ tz t = PTimezone z)
  /\ exists ty an ut tn k,
       split "-" s = [ty; an; ut; tn]
       /\ int_of_str tn = Some k /\ self_trans_num t = Some k.
Proof.
  rewrite parse_confirmation_code_eq.
  destruct (split "-" s) as [|ty [|an [|ut [|tn [|x l]]]]]; try discriminate.
  destruct (negb _); [discriminate|].
  destruct (str_index "DWIX" ty) as [i|]; [|discriminate].
  destruct (int_of_str an) as [n|]; [|discriminate].
  destruct (Account_tz p) as [z|] eqn:Ez; [|discriminate].
  destruct (TransactionID_init _ _ _ _ _ p) as [[t0|e] p0] eqn:Ei; [|discriminate].
  destruct (int_of_str tn) as [k|] eqn:Ek; [|discriminate].
  intros [= ? ?]; subst.
  pose proof (TransactionID_init_counter _ _ _ _ _ _ _ _ Ei) as (_ & _ & Hn & _).
  rewrite TransactionID_init_eq in Ei.
  destruct (str_getitem _ _); [|discriminate].
  destruct (set_utc_time _); [|discriminate].
  injection Ei as ? _; subst t0. simpl. split; [assumption|].
  split; [eauto|]. exists ty, an, ut, tn, k. auto.
Qed.

(** An input with another number of fields than four cannot be unpacked. *)
Lemma parse_wrong_field_count now s p :
  List.length (split "-" s) <> 4%nat ->
  parse_confirmation_code now s p = (Raise (ValueError ""), p).
Proof.
  rewrite parse_confirmation_code_eq.
  destruct (split "-" s) as [|ty [|an [|ut [|tn [|x l]]]]]; simpl; try reflexivity.
  congruence.
Qed.

(** Four fields, the first of which does not occur in ['DWIX']. *)
Lemma parse_unknown_type now ty an ut tn s p :
  split "-" s = [ty; an; ut; tn] ->
  str_contains "DWIX" ty = false ->
  parse_confirmation_code now s p =
  (Raise (TransactionCodeError "Invalid Transaction Code"), p).
Proof.
  intros Hs Hty. rewrite parse_confirmation_code_eq, Hs, Hty. reflexivity.
Qed.

(** C7 at a failing input.  The first field ["DW"] is none of the four
    letters, but it occurs in ['DWIX'], at position 0: the code is
    accepted and read as a deposit. *)
Theorem parse_accepts_two_letter_type :
  split "-" "DW-1-20200101000000-5" = ["DW"; "1"; "20200101000000"; "5"]
  /\ parse_confirmation_code (mk_datetime 2021 6 1 12 0 0 0) "DW-1-20200101000000-5"
       (mk_process 0 (Some timezone_utc) true)
     = (Ok (mk_TransactionID (PInt 0) "D" 1 (mk_datetime 2020 1 1 0 0 0 0)
              (PTimezone timezone_utc) (Some 5)),
        mk_process 1 (Some timezone_utc) true).
Proof. split; reflexivity. Qed.

(** ** The timezone of the class *)

Lemma set_tz_timezone z p :
  set_tz (PTimezone z) p =
  (Ok tt, mk_process (trans_num p) (Some z) (zero_fill_year p)).
Proof. reflexivity. Qed.

Lemma TimeZone_init_range n h m t :
  TimeZone_init n h m = Ok t ->
  -24 < hours t < 24 /\ -60 < minutes t < 60.
Proof.
  unfold TimeZone_init.
  destruct (TimeZone_set_name n) as [s|e]; [|discriminate]. simpl.
  destruct (TimeZone_set_hours h) as [hz|e] eqn:Eh; [|discriminate]. simpl.
  destruct (TimeZone_set_minutes m) as [mz|e] eqn:Em; [|discriminate]. simpl.
  intros [= <-]. simpl.
  apply TimeZone_set_hours_ok in Eh. apply TimeZone_set_minutes_ok in Em. tauto.
Qed.

Lemma set_tz_TimeZone n h m t p :
  TimeZone_init n h m = Ok t ->
  set_tz (PTimeZone t) p =
  (Ok tt, mk_process (trans_num p)
            (Some (mk_timezone (offset t) (Some (name t)))) (zero_fill_year p)).
Proof.
  intros Ht. apply TimeZone_init_range in Ht. destruct Ht as [Hh Hm].
  unfold set_tz, bind, lift, timezone_init.
  replace ((-86400 <? offset t) && (offset t <? 86400)) with true; [reflexivity|].
  symmetry. apply andb_true_iff. unfold offset. split; apply Z.ltb_lt; lia.
Qed.

(** C10.  [Account.__init__] calls [set_tz] before it looks at the
    balance: with names and a timezone that pass and a balance that does
    not, it raises [ValueError], and the timezone of the class is the new
    one all the same, for [get_tz] and for [parse_confirmation_code]. *)
Theorem failed_Account_init_sets_tz num fn ln zone z b p s l :
  set_first_name fn = Ok s -> set_last_name ln = Ok l ->
  (zone = PTimezone z
   \/ exists n h m t, TimeZone_init n h m = Ok t /\ zone = PTimeZone t
        /\ z = mk_timezone (offset t) (Some (name t))) ->
  (as_real b = None \/ exists q, as_real b = Some q /\ (q < 0)%Q) ->
  let p' := mk_process (trans_num p) (Some z) (zero_fill_year p) in
  Account_init num fn ln zone b p =
    (Raise (ValueError "Balance must be a non-negative real number"), p')
  /\ get_tz p' = (Ok z, p')
  /\ forall now c t p'',
       parse_confirmation_code now c p' = (Ok t, p'') -> tz t = PTimezone z.
Proof.
  intros Hs Hl Hz Hb p'.
  assert (Htz : set_tz zone p = (Ok tt, p')).
  { destruct Hz as [-> | (n & h & m & t & Ht & -> & ->)].
    - apply set_tz_timezone.
    - eapply set_tz_TimeZone; eauto. }
  split; [|split].
  - unfold Account_init. rewrite Hs, Hl.
    unfold bind at 1. unfold lift at 1. unfold bind at 1. unfold lift at 1.
    rewrite (bind_ok _ _ _ _ _ Htz).
    destruct Hb as [-> | (q & -> & Hq)]; [reflexivity|].
    now rewrite Qltb_true.
  - reflexivity.
  - intros now c t p'' Hp. apply parse_confirmation_code_ok in Hp.
    destruct Hp as (_ & (z' & Hz' & Ht) & _). simpl in Hz'. congruence.
Qed.

Lemma failed_Account_init_sets_tz_witness :
  let p' := mk_process (-1) (Some (mk_timezone 19800 (Some "IST"))) true in
  Account_init 1 (PStr "A") (PStr "B")
    (PTimeZone (mk_TimeZone "IST" 5 30)) (PInt (-1)) (initial true) =
    (Raise (ValueError "Balance must be a non-negative real number"), p')
  /\ get_tz p' = (Ok (mk_timezone 19800 (Some "IST")), p')
  /\ forall now c t p'',
       parse_confirmation_code now c p' = (Ok t, p'') ->
       tz t = PTimezone (mk_timezone 19800 (Some "IST")).
Proof.
  apply (failed_Account_init_sets_tz 1 (PStr "A") (PStr "B")
           (PTimeZone (mk_TimeZone "IST" 5 30)) (mk_timezone 19800 (Some "IST"))
           (PInt (-1)) (initial true) "A" "B").
  - reflexivity.
  - reflexivity.
  - right. exists (PStr "IST"), (PInt 5), (PInt 30), (mk_TimeZone "IST" 5 30).
    repeat split.
  - right. exists (inject_Z (-1)). split; [reflexivity|]. unfold Qlt. simpl. lia.
Defined.

(** ** [deposit], [withdraw], [pay_monthly_interest] *)

Lemma deposit_eq now v a p :
  deposit now v (a, p) =
  match as_real v with
  | Some q =>
      if Qltb q 0
      then (Raise (ValueError "Deposit amount must be a non-negative real number"), (a, p))
      else (Ok (mk_TransactionID (PInt 0) "D" (account_number a) now
                  (PTimezone timezone_utc) None),
            (mk_Account (account_number a) (first_name a) (last_name a)
               (balance a + q)%Q,
             mk_process (trans_num p + 1) (Account_tz p) (zero_fill_year p)))
  | None => (Raise (ValueError "Deposit amount must be a non-negative real number"), (a, p))
  end.
Proof.
  unfold deposit. destruct (as_real v) as [q|]; [|reflexivity].
  destruct (Qltb q 0); reflexivity.
Qed.

Lemma withdraw_eq now v a p :
  withdraw now v (a, p) =
  match as_real v with
  | Some q =>
      if Qltb q 0
      then (Raise (ValueError "Withdrawal amount must be a non-negative real number"), (a, p))
      else
        let p' := mk_process (trans_num p + 1) (Account_tz p) (zero_fill_year p) in
        if Qltb (balance a - q)%Q 0
        then (Raise (TransactionAbort
                       ("Insufficient balance: "
                        ++ TransactionID_repr p'
                             (mk_TransactionID (PInt 3) "X" (account_number a) now
                                (PTimezone timezone_utc) None))),
              (a, p'))
        else (Ok (mk_TransactionID (PInt 1) "W" (account_number a) now
                    (PTimezone timezone_utc) None),
              (mk_Account (account_number a) (first_name a) (last_name a)
                 (balance a - q)%Q, p'))
  | None => (Raise (ValueError "Withdrawal amount must be a non-negative real number"), (a, p))
  end.
Proof.
  unfold withdraw. destruct (as_real v) as [q|]; [|reflexivity].
  destruct (Qltb q 0); [reflexivity|].
  unfold bind at 1. unfold self at 1. cbn [fst].
  destruct (Qltb (balance a - q) 0); reflexivity.
Qed.

Lemma pay_monthly_interest_eq now a p :
  pay_monthly_interest now (a, p) =
  (Ok (mk_TransactionID (PInt 2) "I" (account_number a) now
         (PTimezone timezone_utc) None),
   (mk_Account (account_number a) (first_name a) (last_name a)
      (balance a + balance a * (interest_rate / inject_Z 100))%Q,
    mk_process (trans_num p + 1) (Account_tz p) (zero_fill_year p))).
Proof. reflexivity. Qed.



(** ** The sequence counter *)

Lemma set_tz_counter z p r p' :
  set_tz z p = (r, p') -> trans_num p' = trans_num p.
Proof.
  unfold set_tz, bind, lift, get, put, raise.
  destruct z; try (intros [= ? ?]; subst; reflexivity).
  destruct (timezone_init _ _); simpl; intros [= ? ?]; subst; reflexivity.
Qed.

Lemma Account_init_counter num fn ln z b p r p' :
  Account_init num fn ln z b p = (r, p') -> trans_num p' = trans_num p.
Proof.
  unfold Account_init, bind, lift.
  destruct (set_first_name fn); [|intros [= ? ?]; subst; reflexivity].
  destruct (set_last_name ln); [|intros [= ? ?]; subst; reflexivity].
  destruct (set_tz z p) as [[[]|e] p1] eqn:Ez;
    apply set_tz_counter in Ez; [|intros [= ? ?]; subst; assumption].
  destruct (as_real b) as [q|]; [destruct (Qltb q 0)|];
    intros [= ? ?]; subst; assumption.
Qed.

Lemma parse_confirmation_code_counter now s p r p' :
  parse_confirmation_code now s p = (r, p') ->
  trans_num p <= trans_num p' <= trans_num p + 1.
Proof.
  rewrite parse_confirmation_code_eq.
  destruct (split "-" s) as [|ty [|an [|ut [|tn [|x l]]]]];
    try (intros [= ? ?]; subst; lia).
  destruct (negb _); [intros [= ? ?]; subst; lia|].
  destruct (str_index "DWIX" ty) as [i|]; [|intros [= ? ?]; subst; lia].
  destruct (int_of_str an) as [n|]; [|intros [= ? ?]; subst; lia].
  destruct (Account_tz p) as [z|]; [|intros [= ? ?]; subst; lia].
  destruct (TransactionID_init _ _ _ _ _ p) as [[t|e] p0] eqn:Ei;
    apply TransactionID_init_counter in Ei; destruct Ei as (_ & _ & Ei).
  - destruct (int_of_str tn); intros [= ? ?]; subst; lia.
  - intros [= ? ?]; subst. lia.
Qed.

(** No call of the interface takes the counter down, and none takes it up
    by more than one. *)
Lemma step_counter p p' :
  step p p' -> trans_num p <= trans_num p' <= trans_num p + 1.
Proof.
  intros H. destruct H as
    [now code acct ut z p r p' H | num fn ln z b p r p' H | z p r p' H
    | now v a p r a' p' H | now v a p r a' p' H | now a p r a' p' H
    | now s p r p' H].
  - apply TransactionID_init_counter in H. destruct H as (_ & _ & H).
    destruct r; [lia | subst; lia].
  - apply Account_init_counter in H. lia.
  - apply set_tz_counter in H. lia.
  - rewrite deposit_eq in H.
    destruct (as_real v) as [q|]; [destruct (Qltb q 0)|];
      injection H as _ _ <-; simpl; lia.
  - rewrite withdraw_eq in H.
    destruct (as_real v) as [q|];
      [destruct (Qltb q 0); [|cbv zeta in H; destruct (Qltb (balance a - q) 0)]|];
      injection H as _ _ <-; simpl; lia.
  - rewrite pay_monthly_interest_eq in H. injection H as _ _ <-. simpl. lia.
  - now apply parse_confirmation_code_counter in H.
Qed.

Lemma steps_counter p p' : steps p p' -> trans_num p <= trans_num p'.
Proof.
  induction 1 as [p | p p' p'' H _ IH]; [lia|].
  apply step_counter in H. lia.
Qed.

(** In every state a program can reach the counter is at least -1. *)
Lemma reachable_counter zf p : steps (initial zf) p -> -1 <= trans_num p.
Proof. intros H. apply steps_counter in H. exact H. Qed.

Lemma withdraw_abort_inv now v a p m a' p' :
  withdraw now v (a, p) = (Raise (TransactionAbort m), (a', p')) ->
  a' = a
  /\ p' = mk_process (trans_num p + 1) (Account_tz p) (zero_fill_year p)
  /\ m = "Insufficient balance: "
         ++ TransactionID_repr p'
              (mk_TransactionID (PInt 3) "X" (account_number a) now
                 (PTimezone timezone_utc) None).
Proof.
  rewrite withdraw_eq.
  destruct (as_real v) as [q|]; [|discriminate].
  destruct (Qltb q 0); [discriminate|]. cbv zeta.
  destruct (Qltb (balance a - q) 0); [|discriminate].
  intros [= ? ? ?]; subst. auto.
Qed.


(** C3.  The counter is one integer of the class.  It starts at -1, below
    the first number given out, which is 0.  Every construction of a
    [TransactionID] that completes adds exactly one: the one made by
    [parse_confirmation_code], whose later assignment of the parsed number
    goes to the instance and leaves the counter alone, also when the
    method fails after the construction; and the one made for the receipt
    of a rejected withdrawal.  No call of the interface lowers it. *)
Theorem sequence_counter_only_increments :
  (forall zf, trans_num (initial zf) = -1 /\ trans_num (initial zf) < 0)
  /\ (forall now code acct ut z p t p',
        TransactionID_init now code acct ut z p = (Ok t, p') ->
        trans_num p' = trans_num p + 1)
  /\ (forall now s p t p',
        parse_confirmation_code now s p = (Ok t, p') ->
        trans_num p' = trans_num p + 1
        /\ exists k, self_trans_num t = Some k /\ get_trans_num p' t = k)
  /\ (forall now s ty an ut tn i n z p t p1,
        split "-" s = [ty; an; ut; tn] ->
        str_contains "DWIX" ty = true -> str_index "DWIX" ty = Some i ->
        int_of_str an = Some n -> Account_tz p = Some z ->
        TransactionID_init now (PInt (Z.of_nat i)) n (PStr ut) (PTimezone z) p
          = (Ok t, p1) ->
        int_of_str tn = None ->
        parse_confirmation_code now s p = (Raise (ValueError ""), p1)
        /\ trans_num p1 = trans_num p + 1)
  /\ (forall now v a p m a' p',
        withdraw now v (a, p) = (Raise (TransactionAbort m), (a', p')) ->
        trans_num p' = trans_num p + 1)
  /\ (forall p p', step p p' -> trans_num p <= trans_num p')
  /\ (forall p p', steps p p' -> trans_num p <= trans_num p').
Proof.
  split; [|split; [|split; [|split; [|split; [|split]]]]].
  - intros zf. simpl. lia.
  - intros now code acct ut z p t p' H.
    apply TransactionID_init_counter in H. tauto.
  - intros now s p t p' H. apply parse_confirmation_code_ok in H.
    destruct H as (Hn & _ & (ty & an & ut & tn & k & _ & _ & Hk)).
    split; [assumption|]. exists k. unfold get_trans_num. rewrite Hk. auto.
  - intros now s ty an ut tn i n z p t p1 Hs Hc Hi Hn Hz Ht Hk. split.
    + rewrite parse_confirmation_code_eq, Hs, Hc, Hi, Hn, Hz, Ht, Hk. reflexivity.
    + apply TransactionID_init_counter in Ht. tauto.
  - intros now v a p m a' p' H.
    apply withdraw_abort_inv in H. destruct H as (_ & -> & _). reflexivity.
  - intros p p' H. apply step_counter in H. lia.
  - intros p p' H. now apply steps_counter.
Qed.



(** C2 at a failing input.  An identifier made by [__init__] has no
    sequence number of its own: its confirmation code shows the counter
    of the class as it is when the code is read.  After a deposit and a
    withdrawal the code of the first receipt ends in 1, as the code of
    the second does, although it ended in 0 when it was returned. *)
Theorem earlier_receipt_shows_later_number :
  let now := mk_datetime 2020 1 1 0 0 0 0 in
  let a0 := mk_Account 1 "A" "B" 100 in
  let t1 := mk_TransactionID (PInt 0) "D" 1 now (PTimezone timezone_utc) None in
  let t2 := mk_TransactionID (PInt 1) "W" 1 now (PTimezone timezone_utc) None in
  let a1 := mk_Account 1 "A" "B" (100 + inject_Z 10) in
  let a2 := mk_Account 1 "A" "B" (100 + inject_Z 10 - inject_Z 5) in
  let p1 := mk_process 0 None true in
  let p2 := mk_process 1 None true in
  deposit now (PInt 10) (a0, initial true) = (Ok t1, (a1, p1))
  /\ transaction_num p1 t1 = "D-1-20200101000000-0"
  /\ withdraw now (PInt 5) (a1, p1) = (Ok t2, (a2, p2))
  /\ transaction_num p2 t2 = "W-1-20200101000000-1"
  /\ transaction_num p2 t1 = "D-1-20200101000000-1"
  /\ get_trans_num p2 t1 = get_trans_num p2 t2.
Proof. repeat split. Qed.

(** What does hold: the numbers that identifiers show when they are
    returned increase strictly with the order of construction. *)
Lemma issued_numbers_increase now1 c1 n1 u1 z1 p t1 p1 now2 c2 n2 u2 z2 p2 t2 p3 :
  TransactionID_init now1 c1 n1 u1 z1 p = (Ok t1, p1) ->
  steps p1 p2 ->
  TransactionID_init now2 c2 n2 u2 z2 p2 = (Ok t2, p3) ->
  get_trans_num p1 t1 < get_trans_num p3 t2.
Proof.
  intros H1 S H2.
  apply TransactionID_init_counter in H1. destruct H1 as (_ & _ & N1 & E1).
  apply TransactionID_init_counter in H2. destruct H2 as (_ & _ & N2 & E2).
  apply steps_counter in S. unfold get_trans_num. rewrite E1, E2. lia.
Qed.

(** ** [strptime] after [strftime] *)

Lemma app_nil_r_str (s : string) : s ++ EmptyString = s.
Proof. induction s as [|c s IH]; simpl; [reflexivity | now rewrite IH]. Qed.

Lemma match_alt_full a : forall m rest,
  alt_full a m = true -> match_alt a (m ++ rest) = Some (m, rest).
Proof.
  induction a as [|f a IH]; intros [|c m] rest H; simpl in *; try discriminate.
  - reflexivity.
  - apply andb_prop in H as [Hc Hm]. now rewrite Hc, (IH m rest Hm).
Qed.

Lemma match_alt_fails a : forall m rest,
  alt_fails a m = true -> match_alt a (m ++ rest) = None.
Proof.
  induction a as [|f a IH]; intros [|c m] rest H; simpl in *; try discriminate.
  destruct (f c); [|reflexivity]. now rewrite (IH m rest H).
Qed.

Lemma first_match_selects {A} alts m rest (k : string -> string -> option A) r :
  selects alts m = true -> k m rest = Some r ->
  first_match alts (m ++ rest) k = Some r.
Proof.
  intros Hsel Hk. induction alts as [|a alts IH]; simpl in *; [discriminate|].
  destruct (alt_full a m) eqn:Ef.
  - now rewrite (match_alt_full a m rest Ef), Hk.
  - simpl in Hsel. apply andb_prop in Hsel as [Hf Hs].
    rewrite (match_alt_fails a m rest Hf). auto.
Qed.

Lemma forall_range (P : Z -> bool) lo n :
  forallb (fun i => P (lo + Z.of_nat i)) (seq 0 (Z.to_nat n)) = true ->
  forall v, lo <= v < lo + n -> P v = true.
Proof.
  intros H v Hv. rewrite forallb_forall in H.
  specialize (H (Z.to_nat (v - lo))).
  replace (lo + Z.of_nat (Z.to_nat (v - lo))) with v in H by lia.
  apply H. apply in_seq. lia.
Qed.

Lemma field_ok_inv alts f v :
  field_ok alts f v = true ->
  selects alts (f v) = true /\ all_digits (f v) = true
  /\ int_of_str (f v) = Some v.
Proof.
  unfold field_ok. intros H.
  apply andb_prop in H as [H H3]. apply andb_prop in H as [H1 H2].
  repeat split; try assumption.
  destruct (int_of_str (f v)) as [z|]; [|discriminate].
  apply Z.eqb_eq in H3. now subst.
Qed.

Lemma year_field y : 0 <= y <= 9999 -> field_ok re_Y four_digits y = true.
Proof.
  intros H. apply (forall_range (field_ok re_Y four_digits) 0 10000); [|lia].
  vm_compute. reflexivity.
Qed.

Lemma year_unpadded y : 1000 <= y <= 9999 -> str_int y = four_digits y.
Proof.
  intros H. apply String.eqb_eq.
  apply (forall_range (fun v => String.eqb (str_int v) (four_digits v)) 1000 9000);
    [|lia].
  vm_compute. reflexivity.
Qed.

Lemma month_field v : 1 <= v <= 12 -> field_ok re_m two_digits v = true.
Proof.
  intros H. apply (forall_range (field_ok re_m two_digits) 1 12); [|lia].
  vm_compute. reflexivity.
Qed.

Lemma day_field v : 1 <= v <= 31 -> field_ok re_d two_digits v = true.
Proof.
  intros H. apply (forall_range (field_ok re_d two_digits) 1 31); [|lia].
  vm_compute. reflexivity.
Qed.

Lemma hour_field v : 0 <= v <= 23 -> field_ok re_H two_digits v = true.
Proof.
  intros H. apply (forall_range (field_ok re_H two_digits) 0 24); [|lia].
  vm_compute. reflexivity.
Qed.

Lemma minute_field v : 0 <= v <= 59 -> field_ok re_M two_digits v = true.
Proof.
  intros H. apply (forall_range (field_ok re_M two_digits) 0 60); [|lia].
  vm_compute. reflexivity.
Qed.

Lemma second_field v : 0 <= v <= 59 -> field_ok re_S two_digits v = true.
Proof.
  intros H. apply (forall_range (field_ok re_S two_digits) 0 60); [|lia].
  vm_compute. reflexivity.
Qed.

Lemma days_in_month_le y m : days_in_month y m <= 31.
Proof.
  unfold days_in_month.
  destruct (m =? 2); [destruct (is_leap y); lia|].
  destruct (_ || _); lia.
Qed.

Lemma datetime_ok_inv t :
  datetime_ok t = true ->
  1 <= year t <= 9999 /\ 1 <= month t <= 12
  /\ 1 <= day t <= days_in_month (year t) (month t)
  /\ 0 <= hour t <= 23 /\ 0 <= minute t <= 59 /\ 0 <= second t <= 59
  /\ 0 <= microsecond t <= 999999.
Proof.
  unfold datetime_ok. intros H.
  repeat (apply andb_prop in H as [H ?]).
  repeat match goal with E : (_ <=? _) = true |- _ => apply Z.leb_le in E end.
  lia.
Qed.

Lemma datetime_ok_whole_seconds t :
  datetime_ok t = true -> datetime_ok (whole_seconds t) = true.
Proof.
  intros H. apply datetime_ok_inv in H. unfold datetime_ok, whole_seconds. simpl.
  repeat (apply andb_true_intro; split); apply Z.leb_le; lia.
Qed.

Lemma strftime_Y_four_digits zf y :
  1 <= y <= 9999 -> zf = true \/ 1000 <= y ->
  strftime_Y zf y = four_digits y.
Proof.
  intros Hy [-> | H]; [reflexivity|].
  destruct zf; [reflexivity|]. apply year_unpadded. lia.
Qed.

Lemma regex_match_strftime zf t :
  datetime_ok t = true -> zf = true \/ 1000 <= year t ->
  regex_match (strftime zf t) =
  Some (mk_groups (four_digits (year t)) (two_digits (month t))
          (two_digits (day t)) (two_digits (hour t)) (two_digits (minute t))
          (two_digits (second t)) EmptyString).
Proof.
  intros Hok Hy. apply datetime_ok_inv in Hok.
  destruct Hok as (Y & Mo & D & H & Mi & S & _).
  pose proof (days_in_month_le (year t) (month t)).
  unfold strftime, regex_match. rewrite strftime_Y_four_digits by assumption.
  rewrite <- (app_nil_r_str (two_digits (second t))) at 1.
  apply first_match_selects; [apply field_ok_inv, year_field; lia|].
  apply first_match_selects; [apply field_ok_inv, month_field; lia|].
  apply first_match_selects; [apply field_ok_inv, day_field; lia|].
  apply first_match_selects; [apply field_ok_inv, hour_field; lia|].
  apply first_match_selects; [apply field_ok_inv, minute_field; lia|].
  apply first_match_selects; [apply field_ok_inv, second_field; lia|].
  reflexivity.
Qed.

(** Reading back what [strftime] wrote gives the time to the second. *)
Lemma strptime_strftime zf t :
  datetime_ok t = true -> zf = true \/ 1000 <= year t ->
  strptime (strftime zf t) = Some (whole_seconds t).
Proof.
  intros Hok Hy. unfold strptime. rewrite regex_match_strftime by assumption.
  pose proof (datetime_ok_whole_seconds t Hok) as Hw.
  apply datetime_ok_inv in Hok.
  destruct Hok as (Y & Mo & D & H & Mi & S & _).
  pose proof (days_in_month_le (year t) (month t)).
  cbn [g_rest g_Y g_m g_d g_H g_M g_S].
  destruct (field_ok_inv _ _ _ (year_field (year t) ltac:(lia))) as (_ & _ & ->).
  destruct (field_ok_inv _ _ _ (month_field (month t) ltac:(lia))) as (_ & _ & ->).
  destruct (field_ok_inv _ _ _ (day_field (day t) ltac:(lia))) as (_ & _ & ->).
  destruct (field_ok_inv _ _ _ (hour_field (hour t) ltac:(lia))) as (_ & _ & ->).
  destruct (field_ok_inv _ _ _ (minute_field (minute t) ltac:(lia))) as (_ & _ & ->).
  destruct (field_ok_inv _ _ _ (second_field (second t) ltac:(lia))) as (_ & _ & ->).
  unfold whole_seconds in Hw. cbv zeta. rewrite Hw. reflexivity.
Qed.

(** ** [int] after [str] *)

Lemma all_chars_app f a b :
  all_chars f (a ++ b) = all_chars f a && all_chars f b.
Proof.
  induction a as [|c a IH]; simpl; [reflexivity|].
  now rewrite IH, andb_assoc.
Qed.

Lemma all_chars_impl (f g : ascii -> bool) s :
  (forall c, f c = true -> g c = true) ->
  all_chars f s = true -> all_chars g s = true.
Proof.
  intros Hfg. induction s as [|c s IH]; simpl; [reflexivity|].
  intros H. apply andb_prop in H as [Hc Hs]. now rewrite (Hfg c Hc), IH.
Qed.

Lemma is_digit_not_space c : is_digit c = true -> negb (py_isspace c) = true.
Proof. destruct c as [[] [] [] [] [] [] [] []]; cbv; congruence. Qed.

Lemma is_digit_not_hyphen c : is_digit c = true -> negb (Ascii.eqb c "-") = true.
Proof. destruct c as [[] [] [] [] [] [] [] []]; cbv; congruence. Qed.

Lemma lstrip_id c s : py_isspace c = false -> lstrip (String c s) = String c s.
Proof. intros H. simpl. now rewrite H. Qed.

Lemma rstrip_id s :
  all_chars (fun c => negb (py_isspace c)) s = true -> rstrip s = s.
Proof.
  induction s as [|c s IH]; simpl; [reflexivity|].
  intros H. apply andb_prop in H as [Hc Hs]. rewrite (IH Hs).
  destruct s; [|reflexivity].
  apply negb_true_iff in Hc. now rewrite Hc.
Qed.

Lemma strip_digits s : all_digits s = true -> strip s = s.
Proof.
  intros H. unfold strip. destruct s as [|c s]; [reflexivity|].
  assert (Hs : all_chars (fun c => negb (py_isspace c)) (String c s) = true).
  { eapply all_chars_impl; [|exact H]. apply is_digit_not_space. }
  rewrite lstrip_id.
  - now apply rstrip_id.
  - simpl in Hs. apply andb_prop in Hs as [Hc _]. now apply negb_true_iff in Hc.
Qed.

Lemma int_digits_digits s :
  all_digits s = true -> int_digits true s = Some s.
Proof.
  induction s as [|c s IH]; simpl; [reflexivity|].
  intros H. apply andb_prop in H as [Hc Hs]. now rewrite Hc, (IH Hs).
Qed.

Lemma uint_value_digits s :
  all_digits s = true -> s <> EmptyString ->
  uint_value s = option_map Z.of_uint (NilEmpty.uint_of_string s).
Proof.
  intros H Hne. unfold uint_value. destruct s as [|c s]; [congruence|].
  simpl in H. apply andb_prop in H as [Hc Hs].
  cbn [int_digits]. rewrite Hc, (int_digits_digits s Hs). reflexivity.
Qed.

(** On a non-empty string of digits [int] is plain decimal reading. *)
Lemma int_of_str_digits s :
  all_digits s = true -> s <> EmptyString ->
  int_of_str s = option_map Z.of_uint (NilEmpty.uint_of_string s).
Proof.
  intros H Hne. unfold int_of_str. rewrite (strip_digits s H).
  rewrite <- (uint_value_digits s H Hne).
  destruct s as [|c s]; [congruence|].
  simpl in H. apply andb_prop in H as [Hc _].
  destruct c as [[] [] [] [] [] [] [] []]; try reflexivity; discriminate Hc.
Qed.

Lemma string_of_uint_digits d : all_digits (NilEmpty.string_of_uint d) = true.
Proof. induction d; simpl; auto. Qed.

Lemma string_of_uint_nonempty d :
  d <> Nil -> NilEmpty.string_of_uint d <> EmptyString.
Proof. destruct d; simpl; congruence. Qed.

(** The decimal text of a non-negative [int]. *)
Lemma str_int_nonneg n :
  0 <= n ->
  exists d, d <> Nil /\ str_int n = NilEmpty.string_of_uint d /\ Z.of_uint d = n.
Proof.
  intros Hn. destruct n as [|p|p]; [| |lia].
  - exists (D0 Nil). repeat split. discriminate.
  - exists (Pos.to_uint p). split; [apply Unsigned.to_uint_nonnil|]. split.
    + unfold str_int. simpl. unfold NilZero.string_of_uint.
      pose proof (Unsigned.to_uint_nonnil p).
      destruct (Pos.to_uint p); congruence.
    + unfold Z.of_uint. now rewrite Unsigned.of_to.
Qed.

Lemma str_int_digits n :
  0 <= n -> all_digits (str_int n) = true /\ str_int n <> EmptyString.
Proof.
  intros Hn. destruct (str_int_nonneg n Hn) as (d & Hd & -> & _).
  split; [apply string_of_uint_digits | now apply string_of_uint_nonempty].
Qed.

Lemma int_of_str_str_int n : 0 <= n -> int_of_str (str_int n) = Some n.
Proof.
  intros Hn. destruct (str_int_digits n Hn) as [Hd Hne].
  rewrite int_of_str_digits by assumption.
  destruct (str_int_nonneg n Hn) as (d & _ & -> & <-).
  now rewrite NilEmpty.usu.
Qed.

(** ** [split] *)

Lemma split_no_char sep s : no_char sep s = true -> split sep s = [s].
Proof.
  induction s as [|c s IH]; simpl; [reflexivity|].
  intros H. apply andb_prop in H as [Hc Hs]. apply negb_true_iff in Hc.
  now rewrite Hc, (IH Hs).
Qed.

Lemma split_app sep a b :
  no_char sep a = true -> split sep (a ++ String sep b) = a :: split sep b.
Proof.
  induction a as [|c a IH]; simpl.
  - intros _. now rewrite Ascii.eqb_refl.
  - intros H. apply andb_prop in H as [Hc Ha]. apply negb_true_iff in Hc.
    now rewrite Hc, (IH Ha).
Qed.

Lemma all_digits_no_hyphen s : all_digits s = true -> no_char "-" s = true.
Proof. apply all_chars_impl. apply is_digit_not_hyphen. Qed.

Lemma strftime_digits zf t :
  datetime_ok t = true -> zf = true \/ 1000 <= year t ->
  all_digits (strftime zf t) = true.
Proof.
  intros Hok Hy. apply datetime_ok_inv in Hok.
  destruct Hok as (Y & Mo & D & H & Mi & S & _).
  pose proof (days_in_month_le (year t) (month t)).
  unfold strftime. rewrite strftime_Y_four_digits by assumption.
  destruct (field_ok_inv _ _ _ (year_field (year t) ltac:(lia))) as (_ & E1 & _).
  destruct (field_ok_inv _ _ _ (month_field (month t) ltac:(lia))) as (_ & E2 & _).
  destruct (field_ok_inv _ _ _ (day_field (day t) ltac:(lia))) as (_ & E3 & _).
  destruct (field_ok_inv _ _ _ (hour_field (hour t) ltac:(lia))) as (_ & E4 & _).
  destruct (field_ok_inv _ _ _ (minute_field (minute t) ltac:(lia))) as (_ & E5 & _).
  destruct (field_ok_inv _ _ _ (second_field (second t) ltac:(lia))) as (_ & E6 & _).
  unfold all_digits in *. rewrite !all_chars_app, E1, E2, E3, E4, E5, E6.
  reflexivity.
Qed.

(** ** The round trip of a confirmation code *)

Lemma split_code ty a b c :
  no_char "-" ty = true -> no_char "-" a = true ->
  no_char "-" b = true -> no_char "-" c = true ->
  split "-" (ty ++ "-" ++ a ++ "-" ++ b ++ "-" ++ c) = [ty; a; b; c].
Proof.
  intros Hty Ha Hb Hc. cbn [append].
  rewrite (split_app "-" ty), (split_app "-" a), (split_app "-" b) by assumption.
  now rewrite split_no_char.
Qed.

Lemma strftime_truthy zf t :
  datetime_ok t = true -> zf = true \/ 1000 <= year t ->
  truthy (PStr (strftime zf t)) = true.
Proof.
  intros Hok Hy. apply datetime_ok_inv in Hok.
  unfold strftime. rewrite strftime_Y_four_digits by tauto. reflexivity.
Qed.

(** The four letters. *)
Lemma type_letter c :
  0 <= c <= 3 ->
  exists ty,
    str_getitem codes (PInt c) = Ok ty
    /\ no_char "-" ty = true
    /\ str_contains "DWIX" ty = true
    /\ str_index "DWIX" ty = Some (Z.to_nat c).
Proof.
  intros Hc.
  assert (c = 0 \/ c = 1 \/ c = 2 \/ c = 3) as [-> | [-> | [-> | ->]]] by lia;
    eexists; repeat split.
Qed.

(** C1, as the code has it.  Take a code [c] among 0, 1, 2, 3, an account
    number [n] that is not negative, a time [t]; let the class timezone
    be set (some [Account] has been constructed), and let the year have
    four digits where the C library does not zero-fill it.  Construct
    the identifier and read its confirmation code at once.  Then
    [parse_confirmation_code] returns an identifier with the same code
    and account number, with [t] cut to whole seconds (so [t] itself when
    it has no microseconds), and with the number of the fourth field as
    its own sequence number, not the value the counter has now. *)
Theorem confirmation_code_round_trip now now' c n t z p :
  0 <= c <= 3 -> 0 <= n -> datetime_ok t = true ->
  zero_fill_year p = true \/ 1000 <= year t ->
  -1 <= trans_num p -> Account_tz p = Some z ->
  exists ty,
    let tid := mk_TransactionID (PInt c) ty n t (PTimezone timezone_utc) None in
    let p1 := mk_process (trans_num p + 1) (Account_tz p) (zero_fill_year p) in
    let p2 := mk_process (trans_num p + 2) (Account_tz p) (zero_fill_year p) in
    let back := mk_TransactionID (PInt c) ty n (whole_seconds t) (PTimezone z)
                  (Some (trans_num p + 1)) in
    TransactionID_init now (PInt c) n (PDatetime t) PNone p = (Ok tid, p1)
    /\ split "-" (transaction_num p1 tid) =
       [ty; str_int n; strftime (zero_fill_year p) t; str_int (trans_num p + 1)]
    /\ int_of_str (str_int (trans_num p + 1)) = Some (trans_num p + 1)
    /\ parse_confirmation_code now' (transaction_num p1 tid) p1 = (Ok back, p2)
    /\ get_trans_num p2 back = trans_num p + 1
    /\ get_trans_num p2 back <> trans_num p2
    /\ (microsecond t = 0 -> utc_time back = t).
Proof.
  intros Hc Hn Hok Hy Hk Hz.
  destruct (type_letter c Hc) as (ty & Hty & Hno & Hin & Hix).
  destruct (str_int_digits n Hn) as [Dn _].
  destruct (str_int_digits (trans_num p + 1) ltac:(lia)) as [Dk _].
  pose proof (strftime_digits _ _ Hok Hy) as Dt.
  exists ty. cbv zeta.
  assert (Hsplit :
    split "-" (transaction_num
                 (mk_process (trans_num p + 1) (Account_tz p) (zero_fill_year p))
                 (mk_TransactionID (PInt c) ty n t (PTimezone timezone_utc) None))
    = [ty; str_int n; strftime (zero_fill_year p) t; str_int (trans_num p + 1)]).
  { unfold transaction_num, get_trans_num.
    cbn [trans_type account_num utc_time self_trans_num trans_num zero_fill_year].
    apply split_code; auto using all_digits_no_hyphen. }
  split; [|split; [|split; [|split; [|split; [|split]]]]].
  - rewrite TransactionID_init_eq, Hty. reflexivity.
  - exact Hsplit.
  - apply int_of_str_str_int. lia.
  - rewrite parse_confirmation_code_eq, Hsplit, Hin, Hix.
    cbn [negb]. rewrite (int_of_str_str_int n Hn).
    cbn [Account_tz]. rewrite Hz.
    rewrite TransactionID_init_eq. rewrite Z2Nat.id by lia. rewrite Hty.
    cbn [zero_fill_year]. rewrite (strftime_truthy _ _ Hok Hy).
    cbn [set_utc_time]. rewrite (strptime_strftime _ _ Hok Hy).
    cbn [of_option truthy trans_num Account_tz zero_fill_year].
    rewrite int_of_str_str_int by lia.
    unfold set_self_trans_num.
    cbn [trans_code trans_type account_num utc_time tz].
    replace (trans_num p + 1 + 1) with (trans_num p + 2) by lia. reflexivity.
  - reflexivity.
  - unfold get_trans_num. cbn [self_trans_num trans_num]. lia.
  - intros Hus. cbn [utc_time]. unfold whole_seconds. destruct t. simpl in *.
    now subst.
Qed.

Lemma confirmation_code_round_trip_witness :
  exists ty,
    let t := mk_datetime 2020 2 29 23 5 59 0 in
    let p := mk_process (-1) (Some timezone_utc) false in
    let tid := mk_TransactionID (PInt 1) ty 42 t (PTimezone timezone_utc) None in
    let p1 := mk_process (trans_num p + 1) (Account_tz p) (zero_fill_year p) in
    let p2 := mk_process (trans_num p + 2) (Account_tz p) (zero_fill_year p) in
    let back := mk_TransactionID (PInt 1) ty 42 (whole_seconds t)
                  (PTimezone timezone_utc) (Some (trans_num p + 1)) in
    TransactionID_init (mk_datetime 2021 1 1 0 0 0 0) (PInt 1) 42 (PDatetime t) PNone p
      = (Ok tid, p1)
    /\ split "-" (transaction_num p1 tid) =
       [ty; str_int 42; strftime (zero_fill_year p) t; str_int (trans_num p + 1)]
    /\ int_of_str (str_int (trans_num p + 1)) = Some (trans_num p + 1)
    /\ parse_confirmation_code (mk_datetime 2021 1 1 0 0 0 1)
         (transaction_num p1 tid) p1 = (Ok back, p2)
    /\ get_trans_num p2 back = trans_num p + 1
    /\ get_trans_num p2 back <> trans_num p2
    /\ (microsecond t = 0 -> utc_time back = t).
Proof.
  apply (confirmation_code_round_trip (mk_datetime 2021 1 1 0 0 0 0)
           (mk_datetime 2021 1 1 0 0 0 1) 1 42 (mk_datetime 2020 2 29 23 5 59 0)
           timezone_utc (mk_process (-1) (Some timezone_utc) false)).
  - lia.
  - lia.
  - reflexivity.
  - right. simpl. lia.
  - simpl. lia.
  - reflexivity.
Defined.

(** C1, as the specification has it, fails.  With microseconds in the
    time the identifier that comes back has another time; the code of a
    negative account number has five fields and cannot be unpacked;
    before any [Account] exists the class has no timezone to read; and an
    unpadded year below 1000 is read back as another date. *)
Lemma round_trip_fails :
  let now := mk_datetime 2021 1 1 0 0 0 0 in
  let t := mk_datetime 2020 2 29 23 5 59 123456 in
  let p := mk_process (-1) (Some timezone_utc) true in
  let p1 := mk_process 0 (Some timezone_utc) true in
  let tid n u := mk_TransactionID (PInt 0) "D" n u (PTimezone timezone_utc) None in
  (TransactionID_init now (PInt 0) 42 (PDatetime t) PNone p = (Ok (tid 42 t), p1)
   /\ transaction_num p1 (tid 42 t) = "D-42-20200229230559-0"
   /\ parse_confirmation_code now "D-42-20200229230559-0" p1
      = (Ok (mk_TransactionID (PInt 0) "D" 42 (mk_datetime 2020 2 29 23 5 59 0)
               (PTimezone timezone_utc) (Some 0)),
         mk_process 1 (Some timezone_utc) true)
   /\ mk_datetime 2020 2 29 23 5 59 0 <> t)
  /\ (TransactionID_init now (PInt 0) (-5) (PDatetime t) PNone p = (Ok (tid (-5) t), p1)
      /\ transaction_num p1 (tid (-5) t) = "D--5-20200229230559-0"
      /\ parse_confirmation_code now "D--5-20200229230559-0" p1
         = (Raise (ValueError ""), p1))
  /\ (TransactionID_init now (PInt 0) 42 (PDatetime t) PNone (initial true)
      = (Ok (tid 42 t), mk_process 0 None true)
      /\ parse_confirmation_code now "D-42-20200229230559-0" (mk_process 0 None true)
         = (Raise (AttributeError ""), mk_process 0 None true))
  /\ (let u := mk_datetime 999 1 1 0 0 0 0 in
      let q1 := mk_process 0 (Some timezone_utc) false in
      transaction_num q1 (tid 42 u) = "D-42-9990101000000-0"
      /\ parse_confirmation_code now "D-42-9990101000000-0" q1
         = (Ok (mk_TransactionID (PInt 0) "D" 42 (mk_datetime 9990 10 10 0 0 0 0)
                  (PTimezone timezone_utc) (Some 0)),
            mk_process 1 (Some timezone_utc) false)).
Proof.
  cbv zeta. repeat split. discriminate.
Qed.

(** * Further properties of the code *)

(** ** More on [TimeZone] *)

Lemma TimeZone_reachable_range t :
  TimeZone_reachable t ->
  name t <> EmptyString /\ -24 < hours t < 24 /\ -60 < minutes t < 60.
Proof.
  induction 1 as [n h m t H | t v t' _ IH H | t v t' _ IH H | t v t' _ IH H].
  - unfold TimeZone_init in H.
    destruct (TimeZone_set_name n) as [s|e] eqn:En; [|discriminate]. simpl in H.
    destruct (TimeZone_set_hours h) as [hz|e] eqn:Eh; [|discriminate]. simpl in H.
    destruct (TimeZone_set_minutes m) as [mz|e] eqn:Em; [|discriminate]. simpl in H.
    injection H as <-. simpl.
    apply TimeZone_set_name_ok in En. apply TimeZone_set_hours_ok in Eh.
    apply TimeZone_set_minutes_ok in Em. tauto.
  - unfold TimeZone_assign_name in H.
    destruct (TimeZone_set_name v) as [s|e] eqn:En; [|discriminate].
    injection H as <-. simpl. apply TimeZone_set_name_ok in En. tauto.
  - unfold TimeZone_assign_hours in H.
    destruct (TimeZone_set_hours v) as [hz|e] eqn:Eh; [|discriminate].
    injection H as <-. simpl. apply TimeZone_set_hours_ok in Eh. tauto.
  - unfold TimeZone_assign_minutes in H.
    destruct (TimeZone_set_minutes v) as [mz|e] eqn:Em; [|discriminate].
    injection H as <-. simpl. apply TimeZone_set_minutes_ok in Em. tauto.
Qed.

(** X1.  Whatever is assigned to a [TimeZone] after its construction, its
    name stays non-empty, its hours within -23..23 and its minutes within
    -59..59; its offset is therefore at most 23 h 59 min either way, and
    [set_tz] takes it and keeps that offset and that name. *)
Theorem reachable_TimeZone_accepted t p :
  TimeZone_reachable t ->
  (name t <> EmptyString /\ -24 < hours t < 24 /\ -60 < minutes t < 60)
  /\ -86340 <= offset t <= 86340
  /\ set_tz (PTimeZone t) p =
     (Ok tt, mk_process (trans_num p)
               (Some (mk_timezone (offset t) (Some (name t)))) (zero_fill_year p)).
Proof.
  intros H. apply TimeZone_reachable_range in H. split; [assumption|].
  destruct H as (_ & Hh & Hm). unfold offset. split; [lia|].
  unfold set_tz, bind, lift, timezone_init.
  replace ((-86400 <? offset t) && (offset t <? 86400)) with true; [reflexivity|].
  symmetry. apply andb_true_iff. unfold offset. split; apply Z.ltb_lt; lia.
Qed.

Lemma reachable_TimeZone_accepted_witness :
  (name (mk_TimeZone "IST" (-23) 30) <> EmptyString
   /\ -24 < hours (mk_TimeZone "IST" (-23) 30) < 24
   /\ -60 < minutes (mk_TimeZone "IST" (-23) 30) < 60)
  /\ -86340 <= offset (mk_TimeZone "IST" (-23) 30) <= 86340
  /\ set_tz (PTimeZone (mk_TimeZone "IST" (-23) 30)) (initial true) =
     (Ok tt, mk_process (trans_num (initial true))
               (Some (mk_timezone (offset (mk_TimeZone "IST" (-23) 30))
                        (Some (name (mk_TimeZone "IST" (-23) 30)))))
               (zero_fill_year (initial true))).
Proof.
  apply (reachable_TimeZone_accepted (mk_TimeZone "IST" (-23) 30) (initial true)).
  apply (reach_hours (mk_TimeZone "IST" 5 30) (PInt (-23))).
  - apply (reach_init (PStr "IST") (PInt 5) (PInt 30)). reflexivity.
  - reflexivity.
Defined.

(** A failed assignment raises [ValueError]. *)
Lemma TimeZone_assign_raises t v e :
  TimeZone_assign_name t v = Raise e \/ TimeZone_assign_hours t v = Raise e
  \/ TimeZone_assign_minutes t v = Raise e ->
  exists msg, e = ValueError msg.
Proof.
  destruct setter_raises_ValueError as (Hn & Hh & Hm).
  unfold TimeZone_assign_name, TimeZone_assign_hours, TimeZone_assign_minutes.
  intros [H | [H | H]].
  - destruct (TimeZone_set_name v) eqn:E; [discriminate|].
    injection H as <-. eauto.
  - destruct (TimeZone_set_hours v) eqn:E; [discriminate|].
    injection H as <-. eauto.
  - destruct (TimeZone_set_minutes v) eqn:E; [discriminate|].
    injection H as <-. eauto.
Qed.

(** ** The timezone of the class, continued *)

Lemma set_tz_inv zone p r p' :
  set_tz zone p = (r, p') ->
  match r with
  | Ok _ => exists z, accepted_tz zone z
                      /\ p' = mk_process (trans_num p) (Some z) (zero_fill_year p)
  | Raise e => p' = p
               /\ (forall z, ~ accepted_tz zone z)
               /\ ((forall t, zone <> PTimeZone t) ->
                   e = TypeError "Invalid TimeZone object passed")
               /\ (exists msg, e = TypeError msg \/ e = ValueError msg)
  end.
Proof.
  unfold set_tz, bind, lift, get, put, raise, accepted_tz.
  destruct zone; try (intros [= <- <-]; split; [reflexivity|]; split;
    [intros ? [H | (? & H & _)]; discriminate | split; [reflexivity | eauto]]).
  - intros [= <- <-]. cbv iota. exists z. auto.
  - unfold timezone_init. destruct ((-86400 <? offset t) && (offset t <? 86400)) eqn:E.
    + simpl. intros [= <- <-]. cbv iota. eexists. split; [|reflexivity].
      right. exists t. apply andb_prop in E as [E1 E2].
      apply Z.ltb_lt in E1. apply Z.ltb_lt in E2. auto.
    + simpl. intros [= <- <-]. split; [reflexivity|]. split; [|split].
      * intros z [H | (t' & [= <-] & Hr & _)]; [discriminate|].
        apply andb_false_iff in E as [E | E]; apply Z.ltb_ge in E; lia.
      * intros H. exfalso. apply (H t). reflexivity.
      * eauto.
Qed.

(** X2.  [set_tz] followed by [get_tz] gives back the timezone that was
    set; a [set_tz] that raises leaves the class as it was, and raises
    [TypeError] when its argument is no [TimeZone]; and before the first
    [set_tz], [get_tz] raises [AttributeError]. *)
Theorem set_tz_then_get_tz :
  (forall zone p p',
      set_tz zone p = (Ok tt, p') ->
      exists z, accepted_tz zone z /\ get_tz p' = (Ok z, p'))
  /\ (forall z p, (set_tz (PTimezone z) ;;; get_tz) p
                  = (Ok z, mk_process (trans_num p) (Some z) (zero_fill_year p)))
  /\ (forall zone p e p',
        set_tz zone p = (Raise e, p') ->
        p' = p /\ get_tz p' = get_tz p
        /\ ((forall t, zone <> PTimeZone t) ->
            e = TypeError "Invalid TimeZone object passed"))
  /\ (forall zf, get_tz (initial zf) = (Raise (AttributeError ""), initial zf)).
Proof.
  split; [|split; [|split]].
  - intros zone p p' H. apply set_tz_inv in H. destruct H as (z & Hz & ->).
    exists z. split; [assumption | reflexivity].
  - reflexivity.
  - intros zone p e p' H. apply set_tz_inv in H. destruct H as (-> & _ & He & _).
    auto.
  - reflexivity.
Qed.

(** ** [Account.__init__], continued *)

Lemma Qltb_false_inv x y : Qltb x y = false -> (y <= x)%Q.
Proof. unfold Qle, Qltb. intros H. apply Z.ltb_ge in H. exact H. Qed.

Lemma Qltb_true_inv x y : Qltb x y = true -> (x < y)%Q.
Proof. unfold Qlt, Qltb. intros H. apply Z.ltb_lt in H. exact H. Qed.

Lemma set_first_name_inv fn :
  match set_first_name fn with
  | Ok s' => exists s, fn = PStr s /\ s <> EmptyString /\ s' = strip s
  | Raise e =>
      ((forall s, fn <> PStr s) /\ e = TypeError "Name should only be a string")
      \/ (fn = PStr EmptyString
          /\ e = ValueError "First Name should be atleast 1 character long")
  end.
Proof.
  destruct fn as [| | | |s| | |]; simpl; try (left; split; [discriminate | reflexivity]).
  destruct s as [|c s]; simpl.
  - right. auto.
  - exists (String c s). repeat split. discriminate.
Qed.

Lemma set_last_name_inv ln :
  match set_last_name ln with
  | Ok l' => exists l, ln = PStr l /\ l' = strip l
  | Raise e => (forall l, ln <> PStr l) /\ e = TypeError "Name should only be a string"
  end.
Proof.
  destruct ln as [| | | |l| | |]; simpl; try (split; [discriminate | reflexivity]).
  exists l. auto.
Qed.

Lemma Account_init_eq num fn ln zone b p :
  Account_init num fn ln zone b p =
  match set_first_name fn with
  | Raise e => (Raise e, p)
  | Ok s =>
      match set_last_name ln with
      | Raise e => (Raise e, p)
      | Ok l =>
          match set_tz zone p with
          | (Raise e, p1) => (Raise e, p1)
          | (Ok _, p1) =>
              match as_real b with
              | Some q =>
                  if Qltb q 0
                  then (Raise (ValueError "Balance must be a non-negative real number"), p1)
                  else (Ok (mk_Account num s l q), p1)
              | None =>
                  (Raise (ValueError "Balance must be a non-negative real number"), p1)
              end
          end
      end
  end.
Proof.
  unfold Account_init, bind, lift.
  destruct (set_first_name fn); [|reflexivity].
  destruct (set_last_name ln); [|reflexivity].
  destruct (set_tz zone p) as [[[]|e] p1]; [|reflexivity].
  destruct (as_real b) as [q|]; [destruct (Qltb q 0)|]; reflexivity.
Qed.

(** X3.  [Account.__init__] returns an account exactly when the first
    name is a non-empty string, the last name a string, the timezone one
    that [set_tz] takes and the balance a real number that is not
    negative; the account then holds the names stripped and the balance,
    and the class the timezone.  Otherwise it raises [TypeError] or
    [ValueError]: [TypeError] for a first name that is no string,
    [ValueError] for the empty one; the counter is not touched. *)
Theorem Account_init_outcome num fn ln zone b p :
  match Account_init num fn ln zone b p with
  | (Ok a, p') =>
      exists s l z q,
        fn = PStr s /\ s <> EmptyString /\ ln = PStr l /\ accepted_tz zone z
        /\ as_real b = Some q /\ (0 <= q)%Q
        /\ a = mk_Account num (strip s) (strip l) q
        /\ p' = mk_process (trans_num p) (Some z) (zero_fill_year p)
  | (Raise e, p') =>
      ~ ((exists s, fn = PStr s /\ s <> EmptyString) /\ (exists l, ln = PStr l)
         /\ (exists z, accepted_tz zone z)
         /\ (exists q, as_real b = Some q /\ (0 <= q)%Q))
      /\ (exists msg, e = TypeError msg \/ e = ValueError msg)
      /\ ((forall s, fn <> PStr s) -> e = TypeError "Name should only be a string")
      /\ (fn = PStr EmptyString ->
          e = ValueError "First Name should be atleast 1 character long")
      /\ trans_num p' = trans_num p
  end.
Proof.
  rewrite Account_init_eq.
  pose proof (set_first_name_inv fn) as Hf.
  destruct (set_first_name fn) as [s'|e].
  2:{ destruct Hf as [[Hf ->] | [-> ->]].
      - split; [intros ([s [Hs _]] & _); exact (Hf s Hs)|].
        split; [eauto|]. split; [reflexivity|]. split; [|reflexivity].
        intros Hs. exfalso. exact (Hf _ Hs).
      - split; [intros ([s [[= <-] Hs]] & _); congruence|].
        split; [eauto|]. split; [|split; reflexivity].
        intros Hs. exfalso. exact (Hs EmptyString eq_refl). }
  destruct Hf as (s & -> & Hs & ->).
  assert (N1 : forall e, (forall s0, PStr s <> PStr s0) -> e = TypeError "Name should only be a string").
  { intros e H. exfalso. exact (H s eq_refl). }
  assert (N2 : forall e, PStr s = PStr EmptyString ->
                         e = ValueError "First Name should be atleast 1 character long").
  { intros e [= ->]. congruence. }
  pose proof (set_last_name_inv ln) as Hl.
  destruct (set_last_name ln) as [l'|e].
  2:{ destruct Hl as [Hl ->].
      split; [intros (_ & [l Hl'] & _); exact (Hl l Hl')|]. split; [eauto|]. auto. }
  destruct Hl as (l & -> & ->).
  destruct (set_tz zone p) as [[[]|e] p1] eqn:Ez; apply set_tz_inv in Ez.
  2:{ destruct Ez as (-> & Hno & _ & He).
      split; [intros (_ & _ & [z Hz] & _); exact (Hno z Hz)|]. auto. }
  destruct Ez as (z & Hz & ->).
  destruct (as_real b) as [q|] eqn:Eb.
  2:{ split; [intros (_ & _ & _ & [q [[=] _]])|]. split; [eauto|]. auto. }
  destruct (Qltb q 0) eqn:Eq.
  - split.
    + intros (_ & _ & _ & [q' [[= <-] Hq]]). apply Qltb_true_inv in Eq. lra.
    + split; [eauto|]. auto.
  - exists s, l, z, q. apply Qltb_false_inv in Eq. repeat split; assumption.
Qed.

(** ** Stored names *)

Lemma lstrip_starts s : starts_space (lstrip s) = false.
Proof.
  induction s as [|c s IH]; simpl; [reflexivity|].
  destruct (py_isspace c) eqn:E; [assumption | simpl; assumption].
Qed.

Lemma rstrip_starts s : starts_space s = false -> starts_space (rstrip s) = false.
Proof.
  destruct s as [|c s]; simpl; [reflexivity|]. intros Hc.
  destruct (rstrip s); [rewrite Hc|]; simpl; assumption.
Qed.

Lemma rstrip_ends s : ends_space (rstrip s) = false.
Proof.
  induction s as [|c s IH]; simpl; [reflexivity|].
  destruct (rstrip s) as [|c' r] eqn:E.
  - destruct (py_isspace c) eqn:Ec; simpl; [reflexivity | assumption].
  - exact IH.
Qed.

Lemma lstrip_fixed s : starts_space s = false -> lstrip s = s.
Proof. destruct s as [|c s]; simpl; [reflexivity|]. now intros ->. Qed.

Lemma rstrip_fixed s : ends_space s = false -> rstrip s = s.
Proof.
  induction s as [|c s IH]; simpl; [reflexivity|].
  destruct s as [|c' s'].
  - simpl. now intros ->.
  - intros H. rewrite (IH H). reflexivity.
Qed.

Lemma strip_clean s :
  starts_space (strip s) = false /\ ends_space (strip s) = false
  /\ strip (strip s) = strip s.
Proof.
  assert (H1 : starts_space (strip s) = false)
    by (apply rstrip_starts, lstrip_starts).
  assert (H2 : ends_space (strip s) = false) by apply rstrip_ends.
  repeat split; try assumption.
  unfold strip at 1. now rewrite (lstrip_fixed _ H1), (rstrip_fixed _ H2).
Qed.

Lemma ends_space_app a b :
  b <> EmptyString -> ends_space (a ++ b) = ends_space b.
Proof.
  intros Hb. induction a as [|c a IH]; simpl; [reflexivity|].
  destruct (a ++ b) eqn:E; [|assumption].
  destruct a; simpl in E; [congruence | discriminate].
Qed.

Lemma Account_init_names num fn ln zone b p a p' :
  Account_init num fn ln zone b p = (Ok a, p') ->
  exists s l, first_name a = strip s /\ last_name a = strip l.
Proof.
  rewrite Account_init_eq.
  pose proof (set_first_name_inv fn) as Hf.
  destruct (set_first_name fn) as [s'|e]; [|discriminate].
  destruct Hf as (s & _ & _ & ->).
  pose proof (set_last_name_inv ln) as Hl.
  destruct (set_last_name ln) as [l'|e]; [|discriminate].
  destruct Hl as (l & _ & ->).
  destruct (set_tz zone p) as [[[]|e] p1]; [|discriminate].
  destruct (as_real b) as [q|]; [destruct (Qltb q 0)|]; try discriminate.
  intros [= <- _]. exists s, l. auto.
Qed.

(** X4.  The names an account holds neither begin nor end with
    whitespace, and stripping them again changes nothing; so the full
    name begins with no whitespace when the first name is not empty and
    ends with none when the last name is not empty. *)
Theorem stored_names_stripped num fn ln zone b p a p' :
  Account_init num fn ln zone b p = (Ok a, p') ->
  (starts_space (first_name a) = false /\ ends_space (first_name a) = false
   /\ strip (first_name a) = first_name a)
  /\ (starts_space (last_name a) = false /\ ends_space (last_name a) = false
      /\ strip (last_name a) = last_name a)
  /\ (first_name a <> EmptyString -> starts_space (full_name a) = false)
  /\ (last_name a <> EmptyString -> ends_space (full_name a) = false).
Proof.
  intros H. apply Account_init_names in H. destruct H as (s & l & Hs & Hl).
  unfold full_name. rewrite Hs, Hl.
  destruct (strip_clean s) as (S1 & S2 & S3).
  destruct (strip_clean l) as (L1 & L2 & L3).
  repeat split; try assumption.
  - intros Hne. destruct (strip s); [congruence | exact S1].
  - intros Hne. rewrite ends_space_app by discriminate.
    cbn [append]. destruct (strip l) eqn:E; [congruence|]. exact L2.
Qed.

Lemma stored_names_stripped_witness :
  let a := mk_Account 1 "Ann" "van  Dyk" 0 in
  (starts_space (first_name a) = false /\ ends_space (first_name a) = false
   /\ strip (first_name a) = first_name a)
  /\ (starts_space (last_name a) = false /\ ends_space (last_name a) = false
      /\ strip (last_name a) = last_name a)
  /\ (first_name a <> EmptyString -> starts_space (full_name a) = false)
  /\ (last_name a <> EmptyString -> ends_space (full_name a) = false).
Proof.
  apply (stored_names_stripped 1 (PStr "  Ann ") (PStr " van  Dyk  ")
           (PTimezone timezone_utc) (PInt 0) (initial true)
           (mk_Account 1 "Ann" "van  Dyk" 0)
           (mk_process (-1) (Some timezone_utc) true)).
  reflexivity.
Defined.

(** ** What the methods leave alone *)

(** X5.  Constructing an identifier, depositing, withdrawing, paying
    interest and parsing a code never change the timezone of the class,
    whatever they return or raise: only [set_tz], and through it
    [Account.__init__], does. *)
Theorem class_timezone_frame :
  (forall now code acct ut z p r p',
      TransactionID_init now code acct ut z p = (r, p') ->
      Account_tz p' = Account_tz p)
  /\ (forall now v a p r a' p',
        deposit now v (a, p) = (r, (a', p')) -> Account_tz p' = Account_tz p)
  /\ (forall now v a p r a' p',
        withdraw now v (a, p) = (r, (a', p')) -> Account_tz p' = Account_tz p)
  /\ (forall now a p r a' p',
        pay_monthly_interest now (a, p) = (r, (a', p')) ->
        Account_tz p' = Account_tz p)
  /\ (forall now s p r p',
        parse_confirmation_code now s p = (r, p') -> Account_tz p' = Account_tz p).
Proof.
  split; [|split; [|split; [|split]]].
  - intros now code acct ut z p r p' H.
    apply TransactionID_init_counter in H. tauto.
  - intros now v a p r a' p' H. rewrite deposit_eq in H.
    destruct (as_real v) as [q|]; [destruct (Qltb q 0)|];
      injection H as _ _ <-; reflexivity.
  - intros now v a p r a' p' H. rewrite withdraw_eq in H.
    destruct (as_real v) as [q|];
      [destruct (Qltb q 0); [|cbv zeta in H; destruct (Qltb (balance a - q) 0)]|];
      injection H as _ _ <-; reflexivity.
  - intros now a p r a' p' H. rewrite pay_monthly_interest_eq in H.
    injection H as _ _ <-. reflexivity.
  - intros now s p r p'. rewrite parse_confirmation_code_eq.
    destruct (split "-" s) as [|ty [|an [|ut [|tn [|x l]]]]];
      try (intros [= _ <-]; reflexivity).
    destruct (negb _); [intros [= _ <-]; reflexivity|].
    destruct (str_index "DWIX" ty) as [i|]; [|intros [= _ <-]; reflexivity].
    destruct (int_of_str an) as [n|]; [|intros [= _ <-]; reflexivity].
    destruct (Account_tz p) as [z|] eqn:Ez; [|intros [= _ <-]; assumption].
    destruct (TransactionID_init _ _ _ _ _ p) as [[t|e] p0] eqn:Ei;
      apply TransactionID_init_counter in Ei; destruct Ei as (Ei & _).
    + destruct (int_of_str tn); intros [= _ <-]; congruence.
    + intros [= _ <-]. congruence.
Qed.

(** ** The outcome of [deposit] and [withdraw] *)


(** ** Sequences of calls on one account *)






(** ** What [parse_confirmation_code] returns *)

Lemma strptime_ok s d :
  strptime s = Some d -> datetime_ok d = true /\ microsecond d = 0.
Proof.
  unfold strptime. destruct (regex_match s) as [g|]; [|discriminate].
  destruct (g_rest g); [|discriminate].
  destruct (int_of_str (g_Y g)) as [y|]; [|discriminate].
  destruct (int_of_str (g_m g)) as [mo|]; [|discriminate].
  destruct (int_of_str (g_d g)) as [dd|]; [|discriminate].
  destruct (int_of_str (g_H g)) as [h|]; [|discriminate].
  destruct (int_of_str (g_M g)) as [mi|]; [|discriminate].
  destruct (int_of_str (g_S g)) as [sec|]; [|discriminate].
  cbv zeta. destruct (datetime_ok _) eqn:E; [|discriminate].
  intros [= <-]. auto.
Qed.

Lemma str_getitem_codes_nat i ty :
  str_getitem codes (PInt (Z.of_nat i)) = Ok ty ->
  (i <= 3)%nat
  /\ (ty = "D" \/ ty = "W" \/ ty = "I" \/ ty = "X").
Proof.
  destruct i as [|[|[|[|i]]]]; try (intros [= <-]; split; [lia | tauto]).
  unfold str_getitem. cbn [as_int].
  change (Z.of_nat (String.length codes)) with 4.
  destruct (Z.ltb_spec (Z.of_nat (S (S (S (S i))))) 0); [lia|].
  destruct (Z.leb_spec 0 (Z.of_nat (S (S (S (S i))))));
    destruct (Z.ltb_spec (Z.of_nat (S (S (S (S i))))) 4);
    try discriminate; lia.
Qed.

(** X9.  An identifier that [parse_confirmation_code] returns is well
    formed whatever the input was: its code is one of 0, 1, 2, 3 and its
    type the letter of that code; its time is either a valid time
    without microseconds or the current time; its timezone is that of
    the class; and it carries a sequence number of its own. *)
Theorem parse_returns_well_formed now s p t p' :
  parse_confirmation_code now s p = (Ok t, p') ->
  (exists c, 0 <= c <= 3 /\ trans_code t = PInt c
             /\ str_getitem codes (PInt c) = Ok (trans_type t))
  /\ (trans_type t = "D" \/ trans_type t = "W" \/ trans_type t = "I"
      \/ trans_type t = "X")
  /\ (utc_time t = now
      \/ (datetime_ok (utc_time t) = true /\ microsecond (utc_time t) = 0))
  /\ (exists z, Account_tz p = Some z /\ tz t = PTimezone z)
  /\ (exists k, self_trans_num t = Some k).
Proof.
  rewrite parse_confirmation_code_eq.
  destruct (split "-" s) as [|ty [|an [|ut [|tn [|x l]]]]]; try discriminate.
  destruct (negb _); [discriminate|].
  destruct (str_index "DWIX" ty) as [i|]; [|discriminate].
  destruct (int_of_str an) as [n|]; [|discriminate].
  destruct (Account_tz p) as [z|]; [|discriminate].
  rewrite TransactionID_init_eq.
  destruct (str_getitem codes (PInt (Z.of_nat i))) as [ty'|] eqn:Ety; [|discriminate].
  destruct (set_utc_time _) as [d|] eqn:Ed; [|discriminate].
  destruct (int_of_str tn) as [k|]; [|discriminate].
  intros [= <- _]. unfold set_self_trans_num.
  cbn [trans_code trans_type utc_time tz self_trans_num truthy].
  destruct (str_getitem_codes_nat i ty' Ety) as [Hi Hty].
  split; [exists (Z.of_nat i); repeat split; [lia | lia | assumption]|].
  split; [assumption|]. split; [|eauto].
  destruct (truthy (PStr ut)).
  - right. cbn [set_utc_time] in Ed. unfold of_option in Ed.
    destruct (strptime ut) as [d'|] eqn:Es; [|discriminate].
    injection Ed as <-. now apply strptime_ok in Es.
  - left. now injection Ed as <-.
Qed.

Lemma parse_returns_well_formed_witness :
  let now := mk_datetime 2021 6 1 12 0 0 0 in
  let t := mk_TransactionID (PInt 0) "D" 1 (mk_datetime 2020 1 1 0 0 0 0)
             (PTimezone timezone_utc) (Some 5) in
  (exists c, 0 <= c <= 3 /\ trans_code t = PInt c
             /\ str_getitem codes (PInt c) = Ok (trans_type t))
  /\ (trans_type t = "D" \/ trans_type t = "W" \/ trans_type t = "I"
      \/ trans_type t = "X")
  /\ (utc_time t = now
      \/ (datetime_ok (utc_time t) = true /\ microsecond (utc_time t) = 0))
  /\ (exists z, Account_tz (mk_process 0 (Some timezone_utc) true) = Some z
                /\ tz t = PTimezone z)
  /\ (exists k, self_trans_num t = Some k).
Proof.
  apply (parse_returns_well_formed (mk_datetime 2021 6 1 12 0 0 0)
           "DW-1-20200101000000-5" (mk_process 0 (Some timezone_utc) true)
           (mk_TransactionID (PInt 0) "D" 1 (mk_datetime 2020 1 1 0 0 0 0)
              (PTimezone timezone_utc) (Some 5))
           (mk_process 1 (Some timezone_utc) true)).
  reflexivity.
Defined.

Lemma str_index_codes ty i :
  str_index "DWIX" ty = Some i -> (i <= 3)%nat.
Proof.
  unfold str_index. cbn [String.index].
  destruct (prefix ty "DWIX") eqn:E0; [intros [= <-]; lia|].
  destruct (prefix ty "WIX"); [intros [= <-]; lia|].
  destruct (prefix ty "IX"); [intros [= <-]; lia|].
  destruct (prefix ty "X"); [intros [= <-]; lia|].
  destruct ty; [discriminate E0 | discriminate].
Qed.

Lemma str_getitem_codes_ok i :
  (i <= 3)%nat -> exists ty, str_getitem codes (PInt (Z.of_nat i)) = Ok ty.
Proof.
  intros H. destruct i as [|[|[|[|i]]]]; try lia; eexists; reflexivity.
Qed.

(** X10.  A code whose third field is empty is not refused: the empty
    string counts as no time given, and the identifier that comes back
    carries the current time. *)
Theorem parse_empty_time_is_now now s ty an tn n k z p :
  split "-" s = [ty; an; EmptyString; tn] ->
  str_contains "DWIX" ty = true ->
  int_of_str an = Some n -> int_of_str tn = Some k ->
  Account_tz p = Some z ->
  exists t,
    parse_confirmation_code now s p =
      (Ok t, mk_process (trans_num p + 1) (Account_tz p) (zero_fill_year p))
    /\ utc_time t = now /\ account_num t = n /\ self_trans_num t = Some k
    /\ tz t = PTimezone z.
Proof.
  intros Hs Hc Hn Hk Hz.
  rewrite parse_confirmation_code_eq, Hs, Hc. cbn [negb].
  unfold str_contains in Hc. fold (str_index "DWIX" ty) in Hc.
  destruct (str_index "DWIX" ty) as [i|] eqn:Ei; [|discriminate].
  rewrite Hn, Hz, TransactionID_init_eq.
  destruct (str_getitem_codes_ok i (str_index_codes ty i Ei)) as [ty' ->].
  cbn [truthy String.length Nat.eqb negb set_utc_time]. rewrite Hk.
  cbn [Account_tz]. rewrite ?Hz.
  eexists. split; [reflexivity|]. cbn. auto.
Qed.

Lemma parse_empty_time_is_now_witness :
  exists t,
    parse_confirmation_code (mk_datetime 2021 6 1 12 0 0 7) "W-12--3"
      (mk_process 9 (Some timezone_utc) true) =
      (Ok t, mk_process (9 + 1) (Some timezone_utc) true)
    /\ utc_time t = mk_datetime 2021 6 1 12 0 0 7 /\ account_num t = 12
    /\ self_trans_num t = Some 3 /\ tz t = PTimezone timezone_utc.
Proof.
  apply (parse_empty_time_is_now (mk_datetime 2021 6 1 12 0 0 7) "W-12--3"
           "W" "12" "3" 12 3 timezone_utc (mk_process 9 (Some timezone_utc) true));
    reflexivity.
Defined.

(** ** Codes that cannot be parsed *)

Lemma split_length sep s : List.length (split sep s) = S (count_char sep s).
Proof.
  induction s as [|c s IH]; simpl; [reflexivity|].
  destruct (Ascii.eqb c sep); simpl.
  - now rewrite IH.
  - destruct (split sep s) as [|h t]; simpl in *; [discriminate | assumption].
Qed.

Lemma count_char_app sep a b :
  count_char sep (a ++ b) = (count_char sep a + count_char sep b)%nat.
Proof. induction a as [|c a IH]; simpl; [reflexivity | rewrite IH; lia]. Qed.

Lemma str_int_negative n : n < 0 -> (1 <= count_char "-" (str_int n))%nat.
Proof. destruct n as [|q|q]; try lia. intros _. simpl. lia. Qed.

(** X11.  The confirmation code of an identifier whose account number is
    negative has more than four fields, the sign being a hyphen too:
    [parse_confirmation_code] raises [ValueError] on it, in every state,
    and touches nothing. *)
Theorem negative_account_never_parses now p t p0 :
  account_num t < 0 ->
  (5 <= List.length (split "-" (transaction_num p t)))%nat
  /\ parse_confirmation_code now (transaction_num p t) p0 = (Raise (ValueError ""), p0).
Proof.
  intros Hn.
  assert (H : (5 <= List.length (split "-" (transaction_num p t)))%nat).
  { rewrite split_length. unfold transaction_num. rewrite !count_char_app.
    pose proof (str_int_negative _ Hn). simpl. lia. }
  split; [assumption|]. apply parse_wrong_field_count. lia.
Qed.

Lemma negative_account_never_parses_witness :
  (5 <= List.length
          (split "-"
             (transaction_num (mk_process 0 (Some timezone_utc) true)
                (mk_TransactionID (PInt 0) "D" (-5) (mk_datetime 2020 1 1 0 0 0 0)
                   (PTimezone timezone_utc) None))))%nat
  /\ parse_confirmation_code (mk_datetime 2020 1 1 0 0 0 0)
       (transaction_num (mk_process 0 (Some timezone_utc) true)
          (mk_TransactionID (PInt 0) "D" (-5) (mk_datetime 2020 1 1 0 0 0 0)
             (PTimezone timezone_utc) None))
       (mk_process 0 (Some timezone_utc) true)
     = (Raise (ValueError ""), mk_process 0 (Some timezone_utc) true).
Proof.
  apply (negative_account_never_parses (mk_datetime 2020 1 1 0 0 0 0)
           (mk_process 0 (Some timezone_utc) true)
           (mk_TransactionID (PInt 0) "D" (-5) (mk_datetime 2020 1 1 0 0 0 0)
              (PTimezone timezone_utc) None)
           (mk_process 0 (Some timezone_utc) true)).
  simpl. lia.
Defined.

(** ** What a confirmation code tells *)



(** ** The time of an identifier *)

(** X13.  The time of an identifier can be given as a [datetime] or as
    the fourteen digits of a confirmation code: the digits of a time give
    the same identifier as that time cut to the second.  A time that is
    given and cannot be read makes the constructor raise before the
    counter moves; a time that counts as false ([None], the empty string,
    0) stands for the current time. *)
Theorem utc_time_forms_agree now code acct z p zf t :
  datetime_ok t = true -> zf = true \/ 1000 <= year t ->
  (TransactionID_init now code acct (PStr (strftime zf t)) z p
   = TransactionID_init now code acct (PDatetime (whole_seconds t)) z p)
  /\ (forall ut e p',
        TransactionID_init now code acct ut z p = (Raise e, p') -> p' = p)
  /\ (forall ut, truthy ut = false ->
        TransactionID_init now code acct ut z p
        = TransactionID_init now code acct (PDatetime now) z p).
Proof.
  intros Hok Hy. split; [|split].
  - rewrite !TransactionID_init_eq.
    rewrite (strftime_truthy zf t Hok Hy).
    cbn [truthy set_utc_time].
    rewrite (strptime_strftime zf t Hok Hy). reflexivity.
  - intros ut e p' H. apply TransactionID_init_counter in H. tauto.
  - intros ut Hut. rewrite !TransactionID_init_eq, Hut. reflexivity.
Qed.

Lemma utc_time_forms_agree_witness :
  let now := mk_datetime 2021 1 1 0 0 0 0 in
  let t := mk_datetime 2020 2 29 23 5 59 250000 in
  (TransactionID_init now (PInt 1) 4 (PStr (strftime false t)) PNone (initial true)
   = TransactionID_init now (PInt 1) 4 (PDatetime (whole_seconds t)) PNone (initial true))
  /\ (forall ut e p',
        TransactionID_init now (PInt 1) 4 ut PNone (initial true) = (Raise e, p') ->
        p' = initial true)
  /\ (forall ut, truthy ut = false ->
        TransactionID_init now (PInt 1) 4 ut PNone (initial true)
        = TransactionID_init now (PInt 1) 4 (PDatetime now) PNone (initial true)).
Proof.
  apply (utc_time_forms_agree (mk_datetime 2021 1 1 0 0 0 0) (PInt 1) 4 PNone
           (initial true) false (mk_datetime 2020 2 29 23 5 59 250000)).
  - reflexivity.
  - right. simpl. lia.
Defined.

Lemma two_digits_int v : 0 <= v <= 99 -> int_of_str (two_digits v) = Some v.
Proof.
  intros H.
  assert (E : match int_of_str (two_digits v) with
              | Some z => z =? v
              | None => false
              end = true).
  { apply (forall_range
             (fun v => match int_of_str (two_digits v) with
                       | Some z => z =? v
                       | None => false
                       end) 0 100); [|lia].
    vm_compute. reflexivity. }
  destruct (int_of_str (two_digits v)) as [z|]; [|discriminate].
  apply Z.eqb_eq in E. now subst.
Qed.

Lemma two_digits_inj a b :
  0 <= a <= 99 -> 0 <= b <= 99 -> two_digits a = two_digits b -> a = b.
Proof.
  intros Ha Hb H. apply (f_equal int_of_str) in H.
  rewrite !two_digits_int in H by assumption. congruence.
Qed.

Lemma four_digits_inj a b :
  0 <= a <= 9999 -> 0 <= b <= 9999 -> four_digits a = four_digits b -> a = b.
Proof.
  intros Ha Hb H. apply (f_equal int_of_str) in H.
  destruct (field_ok_inv _ _ _ (year_field a Ha)) as (_ & _ & Ea).
  destruct (field_ok_inv _ _ _ (year_field b Hb)) as (_ & _ & Eb).
  congruence.
Qed.

Lemma six_digits_inj a b :
  0 <= a <= 999999 -> 0 <= b <= 999999 -> six_digits a = six_digits b -> a = b.
Proof.
  intros Ha Hb H. unfold six_digits, two_digits in H. cbn [append] in H.
  injection H as H1 H2 H3 H4 H5 H6.
  assert (E1 : two_digits (a / 10000) = two_digits (b / 10000))
    by (unfold two_digits; congruence).
  assert (E2 : two_digits (a / 100 mod 100) = two_digits (b / 100 mod 100))
    by (unfold two_digits; congruence).
  assert (E3 : two_digits (a mod 100) = two_digits (b mod 100))
    by (unfold two_digits; congruence).
  apply two_digits_inj in E1; [|Z.div_mod_to_equations; lia..].
  apply two_digits_inj in E2; [|Z.div_mod_to_equations; lia..].
  apply two_digits_inj in E3; [|Z.div_mod_to_equations; lia..].
  clear - E1 E2 E3 Ha Hb. Z.div_mod_to_equations. lia.
Qed.

(** X14.  [time_utc] tells any two valid times apart, microseconds
    included (which the confirmation code leaves out): identifiers with
    the same [time_utc] have the same time. *)
Theorem time_utc_injective t1 t2 :
  datetime_ok (utc_time t1) = true -> datetime_ok (utc_time t2) = true ->
  time_utc t1 = time_utc t2 -> utc_time t1 = utc_time t2.
Proof.
  unfold time_utc. destruct (utc_time t1) as [y1 mo1 d1 h1 mi1 s1 u1].
  destruct (utc_time t2) as [y2 mo2 d2 h2 mi2 s2 u2]. intros O1 O2 H.
  apply datetime_ok_inv in O1. apply datetime_ok_inv in O2. cbn in O1, O2.
  pose proof (days_in_month_le y1 mo1) as L1.
  pose proof (days_in_month_le y2 mo2) as L2.
  unfold isoformat, four_digits, two_digits in H.
  cbn [year month day hour minute second microsecond append] in H.
  injection H as Y1 Y2 Y3 Y4 M1 M2 D1 D2 H1 H2 I1 I2 S1 S2 U.
  assert (EY : four_digits y1 = four_digits y2)
    by (unfold four_digits, two_digits; cbn [append]; congruence).
  assert (EM : two_digits mo1 = two_digits mo2) by (unfold two_digits; congruence).
  assert (ED : two_digits d1 = two_digits d2) by (unfold two_digits; congruence).
  assert (EH : two_digits h1 = two_digits h2) by (unfold two_digits; congruence).
  assert (EI : two_digits mi1 = two_digits mi2) by (unfold two_digits; congruence).
  assert (ES : two_digits s1 = two_digits s2) by (unfold two_digits; congruence).
  apply four_digits_inj in EY; [|lia..].
  apply two_digits_inj in EM; [|lia..]. apply two_digits_inj in ED; [|lia..].
  apply two_digits_inj in EH; [|lia..]. apply two_digits_inj in EI; [|lia..].
  apply two_digits_inj in ES; [|lia..].
  assert (EU : u1 = u2).
  { destruct (Z.eqb_spec u1 0) as [-> | N1]; destruct (Z.eqb_spec u2 0) as [-> | N2];
      try reflexivity; try discriminate U.
    assert (E6 : six_digits u1 = six_digits u2)
      by (unfold six_digits, two_digits in *; cbn [append] in *; congruence).
    apply six_digits_inj in E6; lia. }
  congruence.
Qed.

Lemma time_utc_injective_witness :
  utc_time (mk_TransactionID (PInt 0) "D" 1 (mk_datetime 2020 1 1 0 0 0 5)
              (PTimezone timezone_utc) None)
  = utc_time (mk_TransactionID (PInt 1) "W" 2 (mk_datetime 2020 1 1 0 0 0 5)
                (PTimezone timezone_utc) (Some 4)).
Proof.
  apply (time_utc_injective
           (mk_TransactionID (PInt 0) "D" 1 (mk_datetime 2020 1 1 0 0 0 5)
              (PTimezone timezone_utc) None)
           (mk_TransactionID (PInt 1) "W" 2 (mk_datetime 2020 1 1 0 0 0 5)
              (PTimezone timezone_utc) (Some 4))); reflexivity.
Defined.

(** ** The first field of a code *)

Lemma prefix_nil_r s : prefix s EmptyString = true -> s = EmptyString.
Proof. destruct s; simpl; [reflexivity | discriminate]. Qed.

Lemma prefix_cons_r s b r :
  prefix s (String b r) = true ->
  s = EmptyString \/ exists s', s = String b s' /\ prefix s' r = true.
Proof.
  destruct s as [|a s]; simpl; [auto|].
  destruct (ascii_dec a b) as [-> | _]; [|discriminate]. eauto.
Qed.

(** X15.  The first fields that [parse_confirmation_code] lets through
    are exactly the eleven substrings of ['DWIX'], the empty one
    included; each is read as the letter at the place where it begins. *)
Theorem accepted_type_fields ty :
  (str_contains "DWIX" ty = true <->
   In ty [""; "D"; "W"; "I"; "X"; "DW"; "WI"; "IX"; "DWI"; "WIX"; "DWIX"])
  /\ (forall i, str_index "DWIX" ty = Some i ->
        exists a, String.get i "DWIX" = Some a
                  /\ (ty = EmptyString \/ exists r, ty = String a r)).
Proof.
  split.
  - split.
    + unfold str_contains. cbn [String.index].
      destruct (prefix ty "DWIX") eqn:E0; [intros _;
         repeat (first [ apply prefix_nil_r in E0; subst
                       | apply prefix_cons_r in E0;
                         destruct E0 as [-> | (? & -> & E0)] ]);
         simpl; tauto|].
      destruct (prefix ty "WIX") eqn:E1; [intros _;
         repeat (first [ apply prefix_nil_r in E1; subst
                       | apply prefix_cons_r in E1;
                         destruct E1 as [-> | (? & -> & E1)] ]);
         simpl; tauto|].
      destruct (prefix ty "IX") eqn:E2; [intros _;
         repeat (first [ apply prefix_nil_r in E2; subst
                       | apply prefix_cons_r in E2;
                         destruct E2 as [-> | (? & -> & E2)] ]);
         simpl; tauto|].
      destruct (prefix ty "X") eqn:E3; [intros _;
         repeat (first [ apply prefix_nil_r in E3; subst
                       | apply prefix_cons_r in E3;
                         destruct E3 as [-> | (? & -> & E3)] ]);
         simpl; tauto|].
      destruct ty; [discriminate E0 | discriminate].
    + simpl. intros H.
      repeat (destruct H as [<- | H]; [reflexivity|]). destruct H.
  - intros i. unfold str_index. cbn [String.index].
    destruct (prefix ty "DWIX") eqn:E0.
    { intros [= <-]. exists "D"%char. split; [reflexivity|].
      apply prefix_cons_r in E0. destruct E0 as [-> | (r & -> & _)]; eauto. }
    destruct (prefix ty "WIX") eqn:E1.
    { intros [= <-]. exists "W"%char. split; [reflexivity|].
      apply prefix_cons_r in E1. destruct E1 as [-> | (r & -> & _)]; eauto. }
    destruct (prefix ty "IX") eqn:E2.
    { intros [= <-]. exists "I"%char. split; [reflexivity|].
      apply prefix_cons_r in E2. destruct E2 as [-> | (r & -> & _)]; eauto. }
    destruct (prefix ty "X") eqn:E3.
    { intros [= <-]. exists "X"%char. split; [reflexivity|].
      apply prefix_cons_r in E3. destruct E3 as [-> | (r & -> & _)]; eauto. }
    destruct ty; [discriminate E0 | discriminate].
Qed.
